(** * document_parser.py: text extraction with OCR fallback

    A shallow embedding of [src/document_parser.py] and the properties of
    its result records and of its text normaliser.

    Python values are modelled as follows.
    - A [str] is the list of its Unicode code points ([pystr]).
    - An [int] is a [Z].
    - A result [dict] is a finite map from its (literal) keys to values.
    - An exception is a value carrying its message, [str(e)].
    - The libraries the parser calls (PyMuPDF, pytesseract, PIL,
      python-docx, textract, the file system) are a record of outcomes,
      [world]: every call either returns a value or raises. *)

From Stdlib Require Import ZArith NArith Lia Ascii String.
From stdpp Require Import base option list strings gmap pretty.

Local Open Scope N_scope.

(** ** Python strings *)

Abbreviation pystr := (list N).

(** An ASCII literal as a Python string. *)
Definition py (s : string) : pystr :=
  N_of_ascii <$> list_ascii_of_string s.

Definition NL : N := 10.
Definition TAB : N := 9.
Definition SPACE : N := 32.

(** [len(s)] *)
Definition len {A} (s : list A) : Z := Z.of_nat (length s).

(** Truth value of a string or list: non-empty. *)
Definition truthy {A} (s : list A) : bool :=
  match s with [] => false | _ => true end.

(** [str.isspace] on one character, the test [str.strip()] applies:
    CPython's table of whitespace code points. *)
Definition isspace (c : N) : bool :=
  ((9 <=? c) && (c <=? 13)) || ((28 <=? c) && (c <=? 32))
  || (c =? 133) || (c =? 160) || (c =? 5760)
  || ((8192 <=? c) && (c <=? 8202))
  || (c =? 8232) || (c =? 8233) || (c =? 8239) || (c =? 8287)
  || (c =? 12288).

Section Strip.
Context {A : Type} (P : A -> bool).

Fixpoint drop_while (l : list A) : list A :=
  match l with
  | [] => []
  | x :: l' => if P x then drop_while l' else l
  end.

(** Drop the longest prefix and the longest suffix of elements
    satisfying [P]. *)
Definition strip_by (l : list A) : list A :=
  reverse (drop_while (reverse (drop_while l))).

(** Nothing to drop at the front: empty, or a first element outside [P]. *)
Definition head_ok (l : list A) : Prop :=
  match l with [] => True | x :: _ => P x = false end.

(** Nothing to drop at either end. *)
Definition stripped_by (l : list A) : Prop :=
  head_ok l /\ head_ok (reverse l).
End Strip.

(** [s.strip()] *)
Definition strip (s : pystr) : pystr := strip_by isspace s.

(** [s.split(sep)] for a one-character separator: never an empty list. *)
Fixpoint split (sep : N) (s : pystr) : list pystr :=
  match s with
  | [] => [[]]
  | c :: s' =>
      if c =? sep then [] :: split sep s'
      else match split sep s' with
           | [] => [[c]]
           | l :: ls => (c :: l) :: ls
           end
  end.

(** [sep.join(parts)] *)
Fixpoint join (sep : pystr) (parts : list pystr) : pystr :=
  match parts with
  | [] => []
  | [l] => l
  | l :: ls => l ++ sep ++ join sep ls
  end.

(** ** The text normaliser, [clean_extracted_text] *)

(** The body of the loop that removes excessive blank lines; the state is
    [(result_lines, prev_blank)]. *)
Definition blank_step (st : list pystr * bool) (line : pystr)
  : list pystr * bool :=
  let '(result_lines, prev_blank) := st in
  if truthy line then (result_lines ++ [line], false)
  else if negb prev_blank then (result_lines ++ [[]], true)
  else (result_lines, prev_blank).

(** The loop over [clean_lines], from [result_lines = []] and
    [prev_blank = False]; its value is [result_lines]. *)
Definition remove_blank_runs (clean_lines : list pystr) : list pystr :=
  fst (fold_left blank_step clean_lines ([], false)).

Section Normaliser.
(** [str.isprintable] on one character: the Unicode database of the
    running interpreter, which the parser takes as it finds it. *)
Variable isprintable : N -> bool.

(** The filter of the first step: [c.isprintable() or c in '\n\t '] *)
Definition keep (c : N) : bool :=
  isprintable c || bool_decide (c ∈ [NL; TAB; SPACE]).

Definition clean_extracted_text (text : pystr) : pystr :=
  if negb (truthy text) then []
  else
    let clean_text := List.filter keep text in
    let lines := split NL clean_text in
    let clean_lines := strip <$> lines in
    let result_lines := remove_blank_runs clean_lines in
    strip (join [NL] result_lines).
End Normaliser.

(** Python's [isprintable] on the Latin-1 range (code points below 256):
    the letters, digits, punctuation and symbols, and the ASCII space;
    not the controls, the no-break space or the soft hyphen. Above the
    range it answers no; it serves the examples, which stay below. *)
Definition isprintable_latin1 (c : N) : bool :=
  ((32 <=? c) && (c <=? 126)) || ((161 <=? c) && (c <=? 172))
  || ((174 <=? c) && (c <=? 255)).


(** ** Lines *)

(** A line the loop treats as blank: the empty string. *)
Definition is_blank (line : pystr) : bool := negb (truthy line).

(** What the blank-line loop appends to [result_lines], by recursion on
    the lines still to visit ([fold_blank_step] relates it to the loop). *)
Fixpoint collapse (prev_blank : bool) (lines : list pystr) : list pystr :=
  match lines with
  | [] => []
  | line :: rest =>
      if truthy line then line :: collapse false rest
      else if negb prev_blank then [] :: collapse true rest
      else collapse prev_blank rest
  end.

(** No two consecutive empty lines. *)
Definition no_blank_run (lines : list pystr) : Prop :=
  forall before after, lines <> before ++ [[]; []] ++ after.

(** A line of the normalised text: only kept characters, no newline. *)
Definition line_chars (isprintable : N -> bool) (line : pystr) : Prop :=
  Forall (fun c => keep isprintable c = true /\ c <> NL) line.

(** The lines of a normalised text: each stripped and made of kept
    characters, no two consecutive blank ones, none blank at either end. *)
Definition normal_lines (isprintable : N -> bool) (lines : list pystr) : Prop :=
  Forall (stripped_by isspace) lines
  /\ Forall (line_chars isprintable) lines
  /\ no_blank_run lines
  /\ stripped_by is_blank lines.

(** ** Paths *)

(** [s.rfind(c)]: the index of the last [c] in [s], or [-1]. *)
Definition rfind (c : N) (s : pystr) : Z :=
  snd (fold_left
         (fun '(i, found) x => ((i + 1)%Z, if x =? c then i else found))
         s (0%Z, (-1)%Z)).

(** [s[i:j]] for indices that are not negative. *)
Definition slice (s : pystr) (i j : Z) : pystr :=
  take (Z.to_nat j - Z.to_nat i) (drop (Z.to_nat i) s).

Definition SLASH : N := 47.
Definition DOT : N := 46.

(** [os.path.splitext] of [posixpath]: the extension starts at the last
    dot of the last path component, unless only dots come before it in
    that component. *)
Definition splitext (p : pystr) : pystr * pystr :=
  let sepIndex := rfind SLASH p in
  let dotIndex := rfind DOT p in
  if (sepIndex <? dotIndex)%Z
     && existsb (fun c => negb (c =? DOT)) (slice p (sepIndex + 1) dotIndex)
  then (take (Z.to_nat dotIndex) p, drop (Z.to_nat dotIndex) p)
  else (p, []).

(** ** Exceptions, outcomes of calls, and the monad of the parser *)

(** An exception of class [Exception], which is what the libraries raise
    on failure and what every handler of the parser catches
    ([except Exception as e]); the handlers use its message [str(e)]. *)
Inductive exn := Exception (msg : pystr).

Definition str_exn (e : exn) : pystr :=
  match e with Exception msg => msg end.

(** What a call into a library does: return a value or raise. *)
Inductive outcome (A : Type) := Returns (a : A) | Raises (e : exn).
Arguments Returns {A} a.
Arguments Raises {A} e.

#[global] Instance outcome_ret : MRet outcome := fun A a => Returns a.
#[global] Instance outcome_bind : MBind outcome := fun A B f m =>
  match m with Returns a => f a | Raises e => Raises e end.

(** A computation of the parser: it reads and extends the lines printed
    with [file=sys.stderr], and returns or raises. *)
Definition M (A : Type) : Type := list pystr -> outcome A * list pystr.

#[global] Instance M_ret : MRet M := fun A a stderr => (Returns a, stderr).
#[global] Instance M_bind : MBind M := fun A B f m stderr =>
  match m stderr with
  | (Returns a, stderr') => f a stderr'
  | (Raises e, stderr') => (Raises e, stderr')
  end.

Definition call {A} (o : outcome A) : M A := fun stderr => (o, stderr).

(** [try: body except Exception as e: handler e] *)
Definition try_except {A} (body : M A) (handler : exn -> M A) : M A :=
  fun stderr =>
    match body stderr with
    | (Returns a, stderr') => (Returns a, stderr')
    | (Raises e, stderr') => handler e stderr'
    end.

(** [for x in items: st = body st x] *)
Fixpoint for_each {A S} (body : S -> A -> M S) (items : list A) (st : S)
  : M S :=
  match items with
  | [] => mret st
  | x :: rest => st' ← body st x; for_each body rest st'
  end.

(** [enumerate(items)], counting from [k]. *)
Fixpoint enumerate_from {A} (k : Z) (items : list A) : list (Z * A) :=
  match items with
  | [] => []
  | x :: rest => (k, x) :: enumerate_from (k + 1) rest
  end.

Definition enumerate {A} (items : list A) : list (Z * A) :=
  enumerate_from 0 items.

(** ** Result records *)

Inductive value := VStr (s : pystr) | VInt (n : Z).

Abbreviation dict := (gmap string value).

(** ** The libraries and the file system *)

(** A PIL image: [pytesseract.image_to_string(img)]. *)
Record image := { image_to_string : outcome pystr }.

(** PNG data: [Image.open(io.BytesIO(img_data))]. *)
Record png_data := { Image_open : outcome image }.

(** A PyMuPDF pixmap: [pix.tobytes("png")]. *)
Record pixmap := { tobytes : outcome png_data }.

(** A PyMuPDF page: [page.get_text()] and [page.get_pixmap()]. *)
Record page := { get_text : outcome pystr; get_pixmap : outcome pixmap }.

(** An open PyMuPDF document: what iterating over it yields, page by page
    (loading a page may raise), and [doc.close()]. *)
Record pdf_document := {
  doc_pages : list (outcome page);
  doc_close : outcome unit
}.

(** A python-docx paragraph and document. *)
Record paragraph := { p_text : pystr }.
Record docx_document := { doc_paragraphs : list paragraph }.

(** The bytes [textract.process] returns: [raw.decode('utf-8')]. *)
Record raw_bytes := { decode_utf8 : outcome pystr }.

(** A file opened for reading as UTF-8: [f.read()]. *)
Record text_file := { read : outcome pystr }.

(** What the parser finds around it. The last field is what
    [print(line, file=sys.stderr)] does once the lines [printed] have gone
    out that way: it returns, the line written (on [sys.stderr], or on
    [sys.stdout] when [sys.stderr] is [None]), or it raises, as a closed
    or broken stream does. *)
Record world := {
  fitz_open : pystr -> outcome pdf_document;
  docx_Document : pystr -> outcome docx_document;
  import_textract : outcome unit;
  textract_process : pystr -> outcome raw_bytes;
  open_utf8 : pystr -> outcome text_file;
  stderr_print : forall (printed : list pystr) (line : pystr), outcome unit
}.

(** ** The parser *)

Section Parser.
(** The interpreter's [str.isprintable] and [str.lower], and the
    libraries and files the parser finds. *)
Variable isprintable : N -> bool.
Variable lower : pystr -> pystr.
Variable w : world.

(** [print(line, file=sys.stderr)]: on success the line joins the lines
    printed; a write that raises leaves them as they were. *)
Definition print_stderr (line : pystr) : M unit :=
  fun stderr =>
    match stderr_print w stderr line with
    | Returns _ => (Returns (), stderr ++ [line])
    | Raises e => (Raises e, stderr)
    end.

(** The body of the loop over the pages; the state is
    [(full_text, pages_processed, ocr_pages)]. *)
Definition pdf_page_step (st : pystr * Z * Z) (item : Z * outcome page)
  : M (pystr * Z * Z) :=
  let '(full_text, pages_processed, ocr_pages) := st in
  let '(page_num, next) := item in
  page ← call next;
  text ← call (get_text page);
  '(full_text, ocr_pages) ←
    (if truthy (strip text) then
       mret (full_text ++ text ++ [NL], ocr_pages)
     else
       try_except
         (pix ← call (get_pixmap page);
          img_data ← call (tobytes pix);
          img ← call (Image_open img_data);
          ocr_text ← call (image_to_string img);
          if truthy (strip ocr_text) then
            mret (full_text ++ ocr_text ++ [NL], (ocr_pages + 1)%Z)
          else
            mret (full_text, ocr_pages))
         (fun ocr_error =>
            print_stderr (py "OCR failed for page " ++ py (pretty page_num)
                          ++ py ": " ++ str_exn ocr_error);;
            mret (full_text, ocr_pages)));
  mret (full_text, (pages_processed + 1)%Z, ocr_pages).

Definition extract_text_from_pdf (file_path : pystr) : M dict :=
  try_except
    (doc ← call (fitz_open w file_path);
     '(full_text, pages_processed, ocr_pages) ←
       for_each pdf_page_step (enumerate (doc_pages doc)) ([], 0%Z, 0%Z);
     call (doc_close doc);;
     let clean_text := clean_extracted_text isprintable full_text in
     mret ({[ "text" := VStr clean_text;
              "pages_processed" := VInt pages_processed;
              "ocr_pages" := VInt ocr_pages;
              "length" := VInt (len clean_text);
              "method" := VStr (py "PyMuPDF + OCR") ]} : dict))
    (fun e =>
       mret ({[ "error" := VStr (py "PDF extraction failed: " ++ str_exn e) ]}
             : dict)).

(** The python-docx attempt: [Some result] where the source returns from
    inside the [try], [None] where control reaches the fallback. *)
Definition try_python_docx (file_path : pystr) : M (option dict) :=
  try_except
    (doc ← call (docx_Document w file_path);
     let paragraphs :=
       p_text <$> List.filter (fun p => truthy (strip (p_text p)))
                              (doc_paragraphs doc) in
     let text := join [NL] paragraphs in
     if truthy (strip text) then
       let clean_text := clean_extracted_text isprintable text in
       mret (Some ({[ "text" := VStr clean_text;
                      "paragraphs" := VInt (len paragraphs);
                      "length" := VInt (len clean_text);
                      "method" := VStr (py "python-docx") ]} : dict))
     else mret None)
    (fun docx_error =>
       print_stderr (py "python-docx failed: " ++ str_exn docx_error);;
       mret None).

Definition extract_text_from_doc (file_path : pystr) : M dict :=
  try_except
    (let ext := lower (splitext file_path).2 in
     returned ←
       (if bool_decide (ext = py ".docx") then try_python_docx file_path
        else mret None);
     match returned with
     | Some result => mret result
     | None =>
         try_except
           (call (import_textract w);;
            raw ← call (textract_process w file_path);
            raw_text ← call (decode_utf8 raw);
            let clean_text := clean_extracted_text isprintable raw_text in
            mret ({[ "text" := VStr clean_text;
                     "length" := VInt (len clean_text);
                     "method" := VStr (py "textract") ]} : dict))
           (fun textract_error =>
              mret ({[ "error" :=
                         VStr (py "Textract extraction failed: "
                               ++ str_exn textract_error) ]} : dict))
     end)
    (fun e =>
       mret ({[ "error" :=
                  VStr (py "Document extraction failed: " ++ str_exn e) ]}
             : dict)).

Definition extract_text (file_path : pystr) : M dict :=
  try_except
    (let ext := lower (splitext file_path).2 in
     if bool_decide (ext = py ".pdf") then
       extract_text_from_pdf file_path
     else if bool_decide (ext ∈ [py ".doc"; py ".docx"]) then
       extract_text_from_doc file_path
     else if bool_decide (ext = py ".txt") then
       f ← call (open_utf8 w file_path);
       text ← call (read f);
       let clean_text := clean_extracted_text isprintable text in
       mret ({[ "text" := VStr clean_text;
                "length" := VInt (len clean_text);
                "method" := VStr (py "direct text read") ]} : dict)
     else
       mret ({[ "error" :=
                  VStr (py "Unsupported file type: " ++ ext
                        ++ py ". Only PDF, DOC, DOCX, TXT supported.") ]}
             : dict))
    (fun e =>
       mret ({[ "error" := VStr (py "Failed to extract text: " ++ str_exn e) ]}
             : dict)).
End Parser.

(** [str.lower] on ASCII text: the letters A to Z go to a to z. *)
Definition lower_ascii (s : pystr) : pystr :=
  (fun c => if (65 <=? c) && (c <=? 90) then c + 32 else c) <$> s.

(** ** Vocabulary of the properties *)

(** Some character of [s] is not whitespace. *)
Definition has_content (s : pystr) : bool :=
  existsb (fun c => negb (isspace c)) s.

(** The OCR chain of a page, call after call. *)
Definition run_ocr (p : page) : outcome pystr :=
  pix ← get_pixmap p;
  img_data ← tobytes pix;
  img ← Image_open img_data;
  image_to_string img.

(** The page has native text: [get_text] returns more than whitespace. *)
Definition native_page (p : page) : bool :=
  match get_text p with
  | Returns text => has_content text
  | Raises _ => false
  end.

(** OCR was invoked on the page and returned text with content. *)
Definition ocr_page (p : page) : bool :=
  negb (native_page p)
  && match run_ocr p with
     | Returns ocr_text => has_content ocr_text
     | Raises _ => false
     end.

(** OCR was invoked on the page and returned a string that is not the
    empty string. *)
Definition ocr_nonempty_page (p : page) : bool :=
  negb (native_page p)
  && match run_ocr p with
     | Returns ocr_text => truthy ocr_text
     | Raises _ => false
     end.

(** OCR was invoked on the page and failed: a call of the chain raised,
    or the text it returned has no content. *)
Definition ocr_failed_page (p : page) : bool :=
  negb (native_page p) && negb (ocr_page p).

(** What a page adds to [full_text]. *)
Definition page_text (p : page) : pystr :=
  match get_text p with
  | Returns text =>
      if has_content text then text ++ [NL]
      else match run_ocr p with
           | Returns ocr_text =>
               if has_content ocr_text then ocr_text ++ [NL] else []
           | Raises _ => []
           end
  | Raises _ => []
  end.

(** What a page adds to [sys.stderr]. *)
Definition page_diagnostics (page_num : Z) (p : page) : list pystr :=
  if native_page p then []
  else match run_ocr p with
       | Returns _ => []
       | Raises ocr_error =>
           [py "OCR failed for page " ++ py (pretty page_num)
            ++ py ": " ++ str_exn ocr_error]
       end.

Fixpoint diagnostics_from (k : Z) (pages : list page) : list pystr :=
  match pages with
  | [] => []
  | p :: rest => page_diagnostics k p ++ diagnostics_from (k + 1) rest
  end.

(** Printing [lines] one after the other with [file=sys.stderr], after
    [printed], raises nowhere. *)
Fixpoint prints_return (w : world) (printed lines : list pystr) : bool :=
  match lines with
  | [] => true
  | line :: rest =>
      match stderr_print w printed line with
      | Returns _ => prints_return w (printed ++ [line]) rest
      | Raises _ => false
      end
  end.

(** [get_text] returns on the page. *)
Definition readable_page (p : page) : Prop :=
  exists text, get_text p = Returns text.

(** The document at [file_path] opens, every page of it loads and gives
    its text layer, and the document closes. *)
Definition pdf_reads (w : world) (file_path : pystr)
    (pages : list page) : Prop :=
  exists doc,
    fitz_open w file_path = Returns doc
    /\ doc_pages doc = Returns <$> pages
    /\ Forall readable_page pages
    /\ doc_close doc = Returns ().

(** [count] of the elements satisfying [f], as a Python [int]. *)
Definition count {A} (f : A -> bool) (l : list A) : Z :=
  len (List.filter f l).

(** The two shapes of a result record. *)
Definition success_record (r : dict) : Prop :=
  is_Some (r !! "text") /\ is_Some (r !! "method") /\ r !! "error" = None.

Definition error_record (r : dict) : Prop :=
  (exists msg, r !! "error" = Some (VStr msg)) /\ dom r = {[ "error" ]}.

(** The records the parser builds, by strategy. *)
Inductive result_form (isprintable : N -> bool) : dict -> Prop :=
| form_pdf raw pages_processed ocr_pages :
    let clean_text := clean_extracted_text isprintable raw in
    result_form isprintable
      {[ "text" := VStr clean_text;
         "pages_processed" := VInt pages_processed;
         "ocr_pages" := VInt ocr_pages;
         "length" := VInt (len clean_text);
         "method" := VStr (py "PyMuPDF + OCR") ]}
| form_docx raw paragraphs :
    let clean_text := clean_extracted_text isprintable raw in
    result_form isprintable
      {[ "text" := VStr clean_text;
         "paragraphs" := VInt paragraphs;
         "length" := VInt (len clean_text);
         "method" := VStr (py "python-docx") ]}
| form_textract raw :
    let clean_text := clean_extracted_text isprintable raw in
    result_form isprintable
      {[ "text" := VStr clean_text;
         "length" := VInt (len clean_text);
         "method" := VStr (py "textract") ]}
| form_txt raw :
    let clean_text := clean_extracted_text isprintable raw in
    result_form isprintable
      {[ "text" := VStr clean_text;
         "length" := VInt (len clean_text);
         "method" := VStr (py "direct text read") ]}
| form_error msg :
    result_form isprintable {[ "error" := VStr msg ]}.

(** ** Sample documents *)

Definition page_with_text (text : pystr) : page :=
  {| get_text := Returns text;
     get_pixmap := Raises (Exception (py "no pixmap")) |}.

Definition page_scanned (ocr : outcome pystr) : page :=
  {| get_text := Returns [];
     get_pixmap :=
       Returns {| tobytes :=
         Returns {| Image_open :=
           Returns {| image_to_string := ocr |} |} |} |}.

(** A machine without textract, where every PDF has [pages], every DOCX
    has [paragraphs], every text file contains [contents] and
    [sys.stderr] takes every line. *)
Definition sample_world (pages : list page) (paragraphs : list pystr)
    (contents : pystr) : world :=
  {| fitz_open := fun _ =>
       Returns {| doc_pages := Returns <$> pages; doc_close := Returns () |};
     docx_Document := fun _ =>
       Returns {| doc_paragraphs := Build_paragraph <$> paragraphs |};
     import_textract := Raises (Exception (py "No module named 'textract'"));
     textract_process := fun _ => Raises (Exception (py "textract missing"));
     open_utf8 := fun _ => Returns {| read := Returns contents |};
     stderr_print := fun _ _ => Returns () |}.

(** The same machine with a [sys.stderr] on which every write raises
    [e] (a pipe whose reader has gone, say). *)
Definition with_broken_stderr (w : world) (e : exn) : world :=
  {| fitz_open := fitz_open w;
     docx_Document := docx_Document w;
     import_textract := import_textract w;
     textract_process := textract_process w;
     open_utf8 := open_utf8 w;
     stderr_print := fun _ _ => Raises e |}.

(** [length] is the number of characters of [text], a normalised text. *)
Definition length_of_text (isprintable : N -> bool) (r : dict) : Prop :=
  exists raw,
    let clean_text := clean_extracted_text isprintable raw in
    r !! "text" = Some (VStr clean_text)
    /\ r !! "length" = Some (VInt (len clean_text)).

(** The paragraphs python-docx keeps: those with content. *)
Definition kept_paragraphs (doc : docx_document) : list pystr :=
  p_text <$> List.filter (fun p => has_content (p_text p)) (doc_paragraphs doc).

(** The method label tells a PDF read without OCR from one where OCR
    added text: [no_ocr_label] reads the label. *)
Definition method_reflects_ocr (isprintable : N -> bool)
    (no_ocr_label : pystr -> bool) : Prop :=
  forall w file_path pages stderr r stderr',
    pdf_reads w file_path pages ->
    extract_text_from_pdf isprintable w file_path stderr = (Returns r, stderr') ->
    exists label,
      r !! "method" = Some (VStr label)
      /\ (forallb native_page pages = true -> no_ocr_label label = true)
      /\ (existsb ocr_page pages = true -> no_ocr_label label = false).

(** [ocr_pages] is the number of pages where OCR was invoked and returned
    a string that is not empty. *)
Definition ocr_pages_counts_nonempty (isprintable : N -> bool) : Prop :=
  forall w file_path pages stderr r stderr',
    pdf_reads w file_path pages ->
    extract_text_from_pdf isprintable w file_path stderr = (Returns r, stderr') ->
    r !! "ocr_pages" = Some (VInt (count ocr_nonempty_page pages)).


(** The structured strategy reports the method [label]. *)
Definition docx_method_is (isprintable : N -> bool) (lower : pystr -> pystr)
    (label : pystr) : Prop :=
  forall w file_path doc stderr,
    lower (splitext file_path).2 = py ".docx" ->
    docx_Document w file_path = Returns doc ->
    (exists p, p ∈ doc_paragraphs doc /\ has_content (p_text p) = true) ->
    exists r stderr',
      extract_text isprintable lower w file_path stderr = (Returns r, stderr')
      /\ r !! "method" = Some (VStr label).

(** ** The textract fallback, as a value *)

(** The record the fallback of [extract_text_from_doc] returns: the
    normalised output of textract, or the error record of the first of
    [import textract], [textract.process] and [decode] that raises. *)
Definition textract_result (isprintable : N -> bool) (w : world)
    (file_path : pystr) : dict :=
  let failed (e : exn) : dict :=
    {[ "error" := VStr (py "Textract extraction failed: " ++ str_exn e) ]} in
  match import_textract w with
  | Raises e => failed e
  | Returns _ =>
      match textract_process w file_path with
      | Raises e => failed e
      | Returns raw =>
          match decode_utf8 raw with
          | Raises e => failed e
          | Returns raw_text =>
              let clean_text := clean_extracted_text isprintable raw_text in
              {[ "text" := VStr clean_text;
                 "length" := VInt (len clean_text);
                 "method" := VStr (py "textract") ]}
          end
      end
  end.

(** Why python-docx does not answer for a file, with what it prints:
    [docx.Document] raises (one line), or no paragraph has content
    (nothing); [None] when it answers. *)
Definition docx_gives_up (w : world) (file_path : pystr)
  : option (list pystr) :=
  match docx_Document w file_path with
  | Raises docx_error =>
      Some [py "python-docx failed: " ++ str_exn docx_error]
  | Returns doc =>
      if existsb (fun p => has_content (p_text p)) (doc_paragraphs doc)
      then None else Some []
  end.

(** The record of the plain-text branch of [extract_text]. *)
Definition read_text_result (isprintable : N -> bool) (w : world)
    (file_path : pystr) : dict :=
  let failed (e : exn) : dict :=
    {[ "error" := VStr (py "Failed to extract text: " ++ str_exn e) ]} in
  match open_utf8 w file_path with
  | Raises e => failed e
  | Returns f =>
      match read f with
      | Raises e => failed e
      | Returns text =>
          let clean_text := clean_extracted_text isprintable text in
          {[ "text" := VStr clean_text;
             "length" := VInt (len clean_text);
             "method" := VStr (py "direct text read") ]}
      end
  end.

(** A character the normaliser keeps and no strip removes. *)
Definition kept_content (isprintable : N -> bool) (c : N) : bool :=
  keep isprintable c && negb (isspace c).

(** The size of a text given by its lines: every line and its newline. *)
Definition lines_size (lines : list pystr) : nat :=
  foldr (fun line n => S (length line + n)) 0%nat lines.

(** ** The command line, [main] *)

(** A line on standard output: [print(s)] or [print(json.dumps(d))]. *)
Inductive stdout_line := Text (s : pystr) | Json (d : dict).

(** How the process ends: [main] returns, [sys.exit(code)], or an
    exception nobody catches. *)
Inductive termination := Finished | Exited (code : Z) | Uncaught (e : exn).


(** A run of the script: the lines that reached standard output, the
    lines the parser printed that reached [sys.stderr], and the way it
    ends. The traceback of an uncaught exception is not part of it. *)
Record process := {
  stdout : list stdout_line;
  stderr_lines : list pystr;
  ending : termination
}.

Section Main.
Variable isprintable : N -> bool.
Variable lower : pystr -> pystr.
Variable w : world.
(** [os.path.exists] *)
Variable path_exists : pystr -> bool.
(** What a [print] on [sys.stdout] does once the lines [before] are on
    it: it returns, the line written, or it raises. *)
Variable stdout_print : list stdout_line -> stdout_line -> outcome unit.
(** [sys.stderr is None]: what is printed with [file=sys.stderr] then
    goes to [sys.stdout]. *)
Variable stderr_is_none : bool.

(** [print(line)] with [before] on standard output and [printed] on
    [sys.stderr], then [next]; no handler is around it. *)
Definition print_then (before : list stdout_line) (printed : list pystr)
    (line : stdout_line) (next : termination) : process :=
  match stdout_print before line with
  | Returns _ =>
      {| stdout := before ++ [line]; stderr_lines := printed; ending := next |}
  | Raises e =>
      {| stdout := before; stderr_lines := printed; ending := Uncaught e |}
  end.

(** Where the lines the parser printed are when it returns. *)
Definition on_stdout (printed : list pystr) : list stdout_line :=
  if stderr_is_none then Text <$> printed else [].

Definition on_stderr (printed : list pystr) : list pystr :=
  if stderr_is_none then [] else printed.

Definition main (argv : list pystr) : process :=
  if negb (len argv =? 2)%Z then
    print_then [] []
      (Text (py "Usage: python document_parser.py <file_path>")) (Exited 1)
  else
    match argv !! 1%nat with
    | None =>
        {| stdout := []; stderr_lines := [];
           ending := Uncaught (Exception (py "list index out of range")) |}
    | Some file_path =>
        if negb (path_exists file_path) then
          print_then [] []
            (Json {[ "error" := VStr (py "File not found: " ++ file_path) ]})
            (Exited 1)
        else
          match extract_text isprintable lower w file_path [] with
          | (Returns result, printed) =>
              print_then (on_stdout printed) (on_stderr printed)
                (Json result) Finished
          | (Raises e, printed) =>
              {| stdout := on_stdout printed;
                 stderr_lines := on_stderr printed;
                 ending := Uncaught e |}
          end
    end.
End Main.

(** Two pages that agree wherever the page loop looks: on the text layer,
    and on the OCR chain when the text layer has no content. *)
Definition same_where_read (p p' : page) : Prop :=
  get_text p = get_text p'
  /\ (native_page p = false -> run_ocr p = run_ocr p').

(** [docx.Document] raises on the file and printing the line about it
    raises [e] in its turn. *)
Definition docx_print_fails (w : world) (file_path : pystr)
    (stderr : list pystr) (e : exn) : Prop :=
  exists docx_error,
    docx_Document w file_path = Raises docx_error
    /\ stderr_print w stderr (py "python-docx failed: " ++ str_exn docx_error)
       = Raises e.

(** Printing [lines] one after the other with [file=sys.stderr], after
    [printed]: the outcome, and the lines printed when it stops. *)
Fixpoint print_all (w : world) (printed lines : list pystr)
  : outcome unit * list pystr :=
  match lines with
  | [] => (Returns (), printed)
  | line :: rest =>
      match stderr_print w printed line with
      | Returns _ => print_all w (printed ++ [line]) rest
      | Raises e => (Raises e, printed)
      end
  end.
(** ** Facts about stripping *)

Section StripFacts.
Context {A : Type} (P : A -> bool).

Lemma drop_while_head_ok l : head_ok P (drop_while P l).
Proof.
  induction l as [|x l IH]; simpl; [exact I|].
  destruct (P x) eqn:E; [exact IH | exact E].
Qed.

Lemma drop_while_fix l : head_ok P l -> drop_while P l = l.
Proof. destruct l as [|x l]; simpl; [reflexivity|]. intros ->. reflexivity. Qed.

Lemma drop_while_suffix l : exists pre, l = pre ++ drop_while P l.
Proof.
  induction l as [|x l [pre IH]]; simpl.
  - exists []. reflexivity.
  - destruct (P x).
    + exists (x :: pre). simpl. f_equal. exact IH.
    + exists []. reflexivity.
Qed.

Lemma drop_while_Forall (Q : A -> Prop) l :
  Forall Q l -> Forall Q (drop_while P l).
Proof.
  intros H. destruct (drop_while_suffix l) as [pre E].
  rewrite E in H. apply Forall_app in H. tauto.
Qed.

(** Dropping at the back keeps the front as it was. *)
Lemma head_ok_drop_back l :
  head_ok P l -> head_ok P (reverse (drop_while P (reverse l))).
Proof.
  intros H. destruct (drop_while_suffix (reverse l)) as [pre E].
  set (Y := drop_while P (reverse l)) in *.
  assert (El : l = reverse Y ++ reverse pre).
  { rewrite <- reverse_app, <- E, reverse_involutive. reflexivity. }
  destruct (reverse Y) as [|a r]; [exact I|].
  rewrite El in H. exact H.
Qed.

Lemma strip_by_stripped l : stripped_by P (strip_by P l).
Proof.
  unfold stripped_by, strip_by. split.
  - apply head_ok_drop_back, drop_while_head_ok.
  - rewrite reverse_involutive. apply drop_while_head_ok.
Qed.

Lemma strip_by_fix l : stripped_by P l -> strip_by P l = l.
Proof.
  intros [H1 H2]. unfold strip_by.
  rewrite (drop_while_fix l H1), (drop_while_fix _ H2).
  apply reverse_involutive.
Qed.

Lemma strip_by_idem l : strip_by P (strip_by P l) = strip_by P l.
Proof. apply strip_by_fix, strip_by_stripped. Qed.

Lemma strip_by_Forall (Q : A -> Prop) l :
  Forall Q l -> Forall Q (strip_by P l).
Proof.
  intros H. unfold strip_by.
  apply Forall_reverse, drop_while_Forall, Forall_reverse, drop_while_Forall, H.
Qed.

Lemma strip_by_nil : strip_by P [] = [].
Proof. reflexivity. Qed.
End StripFacts.

Example clean_hello :
  clean_extracted_text isprintable_latin1
    (py "Hello" ++ [NL; NL; NL; NL] ++ py "World")
  = py "Hello" ++ [NL; NL] ++ py "World".
Proof. vm_compute. reflexivity. Qed.

Example clean_messy :
  clean_extracted_text isprintable_latin1
    ([NL; SPACE] ++ py " A" ++ [7; TAB; NL; SPACE; NL; 12; NL] ++ py "B c " ++ [NL; NL])
  = py "A" ++ [NL; NL] ++ py "B c".
Proof. vm_compute. reflexivity. Qed.


(** ** Facts about [split] and [join] *)

Lemma split_not_nil sep s : split sep s <> [].
Proof.
  destruct s as [|c s]; simpl; [discriminate|].
  destruct (c =? sep); [discriminate|].
  destruct (split sep s); discriminate.
Qed.

Lemma split_no_sep sep s : Forall (fun l => sep ∉ l) (split sep s).
Proof.
  induction s as [|c s IH]; simpl.
  - repeat constructor. apply not_elem_of_nil.
  - destruct (N.eqb_spec c sep) as [->|Hne].
    + constructor; [apply not_elem_of_nil | exact IH].
    + destruct (split sep s) as [|l ls].
      * repeat constructor. intros Hin.
        apply list_elem_of_singleton in Hin. congruence.
      * inversion IH as [|? ? Hl Hls]; subst. constructor; [|exact Hls].
        intros Hin. apply elem_of_cons in Hin as [E|Hin]; [congruence | tauto].
Qed.

Lemma split_Forall (Q : N -> Prop) sep s :
  Forall Q s -> Forall (Forall Q) (split sep s).
Proof.
  induction 1 as [|c s Hc Hs IH]; simpl.
  - repeat constructor.
  - destruct (c =? sep).
    + constructor; [constructor | exact IH].
    + destruct (split sep s) as [|l ls].
      * repeat constructor. exact Hc.
      * inversion IH; subst. constructor; [constructor|]; assumption.
Qed.

Lemma split_line sep l : sep ∉ l -> split sep l = [l].
Proof.
  induction l as [|c l IH]; simpl; [reflexivity|].
  intros Hnin. apply not_elem_of_cons in Hnin as [Hc Hl].
  destruct (N.eqb_spec c sep) as [E|_]; [congruence|].
  rewrite (IH Hl). reflexivity.
Qed.

Lemma split_line_sep sep l rest :
  sep ∉ l -> split sep (l ++ sep :: rest) = l :: split sep rest.
Proof.
  induction l as [|c l IH]; simpl.
  - intros _. rewrite N.eqb_refl. reflexivity.
  - intros Hnin. apply not_elem_of_cons in Hnin as [Hc Hl].
    destruct (N.eqb_spec c sep) as [E|_]; [congruence|].
    rewrite (IH Hl). reflexivity.
Qed.

Lemma join_cons sep l l' ls :
  join sep (l :: l' :: ls) = l ++ sep ++ join sep (l' :: ls).
Proof. reflexivity. Qed.

Lemma split_join sep ls :
  ls <> [] -> Forall (fun l => sep ∉ l) ls -> split sep (join [sep] ls) = ls.
Proof.
  induction ls as [|l ls IH]; [congruence|].
  intros _ H. inversion H as [|? ? Hl Hls]; subst.
  destruct ls as [|l' ls].
  - simpl. apply split_line, Hl.
  - rewrite join_cons.
    change (l ++ [sep] ++ join [sep] (l' :: ls))
      with (l ++ sep :: join [sep] (l' :: ls)).
    rewrite (split_line_sep _ _ _ Hl), IH; [reflexivity | discriminate | exact Hls].
Qed.

Lemma join_snoc sep ls l :
  ls <> [] -> join sep (ls ++ [l]) = join sep ls ++ sep ++ l.
Proof.
  induction ls as [|a ls IH]; [congruence|]. intros _.
  destruct ls as [|b ls].
  - reflexivity.
  - change ((a :: b :: ls) ++ [l]) with (a :: b :: (ls ++ [l])).
    rewrite !join_cons.
    change (b :: ls ++ [l]) with ((b :: ls) ++ [l]).
    rewrite IH by discriminate. rewrite <- !app_assoc. reflexivity.
Qed.

Lemma reverse_join c ls :
  reverse (join [c] ls) = join [c] (reverse (reverse <$> ls)).
Proof.
  induction ls as [|l ls IH]; [reflexivity|].
  destruct ls as [|l' ls].
  - reflexivity.
  - rewrite join_cons, !reverse_app, IH.
    rewrite (fmap_cons reverse l), (reverse_cons (reverse <$> l' :: ls)).
    rewrite join_snoc.
    + rewrite <- app_assoc. reflexivity.
    + rewrite fmap_cons, reverse_cons. intros E.
      apply app_eq_nil in E as [_ E]. discriminate.
Qed.

Lemma join_Forall (Q : N -> Prop) sep ls :
  Forall Q sep -> Forall (Forall Q) ls -> Forall Q (join sep ls).
Proof.
  intros Hsep. induction 1 as [|l ls Hl Hls IH]; simpl; [constructor|].
  destruct ls; [exact Hl|].
  apply Forall_app; split; [exact Hl|]. apply Forall_app; split; assumption.
Qed.

(** ** Facts about the blank-line loop *)

Lemma fold_blank_step lines acc prev_blank :
  fst (fold_left blank_step lines (acc, prev_blank))
  = acc ++ collapse prev_blank lines.
Proof.
  revert acc prev_blank.
  induction lines as [|line rest IH]; intros acc pb; simpl.
  - rewrite app_nil_r. reflexivity.
  - destruct (truthy line); [|destruct pb; simpl].
    + rewrite IH, <- app_assoc. reflexivity.
    + apply IH.
    + rewrite IH, <- app_assoc. reflexivity.
Qed.

Lemma remove_blank_runs_collapse lines :
  remove_blank_runs lines = collapse false lines.
Proof. unfold remove_blank_runs. apply fold_blank_step. Qed.

Lemma collapse_Forall (Q : pystr -> Prop) prev_blank lines :
  Q [] -> Forall Q lines -> Forall Q (collapse prev_blank lines).
Proof.
  intros Hnil H. revert prev_blank.
  induction H as [|line rest Hl Hr IH]; intros pb; simpl; [constructor|].
  destruct (truthy line); [|destruct pb; simpl]; auto.
Qed.

Lemma no_blank_run_nil : no_blank_run [].
Proof. intros [|? ?] after E; discriminate. Qed.

Lemma no_blank_run_cons line rest :
  no_blank_run rest -> (line = [] -> head_ok is_blank rest) ->
  no_blank_run (line :: rest).
Proof.
  intros Hr Hh [|b before] after E; simpl in E.
  - injection E as -> ->. specialize (Hh eq_refl). discriminate.
  - injection E as _ ->. exact (Hr before after eq_refl).
Qed.

Lemma no_blank_run_inv line rest :
  no_blank_run (line :: rest) ->
  no_blank_run rest /\ (line = [] -> head_ok is_blank rest).
Proof.
  intros H. split.
  - intros before after ->. exact (H (line :: before) after eq_refl).
  - intros ->. destruct rest as [|[|c l] rest]; simpl; try reflexivity.
    exfalso. exact (H [] rest eq_refl).
Qed.

Lemma no_blank_run_reverse lines :
  no_blank_run lines -> no_blank_run (reverse lines).
Proof.
  intros H before after E. apply (H (reverse after) (reverse before)).
  rewrite <- (reverse_involutive lines), E, !reverse_app, <- app_assoc.
  reflexivity.
Qed.

Lemma no_blank_run_drop_while P lines :
  no_blank_run lines -> no_blank_run (drop_while P lines).
Proof.
  intros H before after E.
  destruct (drop_while_suffix P lines) as [pre Epre].
  apply (H (pre ++ before) after). rewrite Epre at 1. rewrite E, <- app_assoc.
  reflexivity.
Qed.

Lemma no_blank_run_strip_by P lines :
  no_blank_run lines -> no_blank_run (strip_by P lines).
Proof.
  intros H. unfold strip_by.
  apply no_blank_run_reverse, no_blank_run_drop_while,
    no_blank_run_reverse, no_blank_run_drop_while, H.
Qed.

Lemma collapse_shape prev_blank lines :
  no_blank_run (collapse prev_blank lines)
  /\ (prev_blank = true -> head_ok is_blank (collapse prev_blank lines)).
Proof.
  revert prev_blank.
  induction lines as [|line rest IH]; intros pb; simpl.
  - split; [apply no_blank_run_nil | intros _; exact I].
  - destruct line as [|c line]; simpl.
    + destruct pb; simpl; [apply IH|]. split; [|discriminate].
      apply no_blank_run_cons; [apply IH | intros _; apply IH; reflexivity].
    + split; [|reflexivity].
      apply no_blank_run_cons; [apply IH | discriminate].
Qed.

Lemma collapse_fix prev_blank lines :
  no_blank_run lines -> (prev_blank = true -> head_ok is_blank lines) ->
  collapse prev_blank lines = lines.
Proof.
  revert prev_blank.
  induction lines as [|line rest IH]; intros pb Hrun Hhead; [reflexivity|].
  apply no_blank_run_inv in Hrun as [Hrest Hnext]. simpl.
  destruct line as [|c line]; simpl.
  - destruct pb; simpl.
    + specialize (Hhead eq_refl). discriminate.
    + f_equal. apply IH; [exact Hrest | intros _; apply Hnext; reflexivity].
  - f_equal. apply IH; [exact Hrest | discriminate].
Qed.

(** ** Stripping a joined text strips its list of lines *)

Lemma drop_while_join lines :
  Forall (head_ok isspace) lines ->
  drop_while isspace (join [NL] lines) = join [NL] (drop_while is_blank lines).
Proof.
  induction 1 as [|line rest Hl Hr IH]; [reflexivity|].
  destruct line as [|c line].
  - change (drop_while is_blank ([] :: rest)) with (drop_while is_blank rest).
    rewrite <- IH. destruct rest; reflexivity.
  - simpl in Hl. change (drop_while is_blank ((c :: line) :: rest))
      with ((c :: line) :: rest).
    destruct rest; simpl; rewrite Hl; reflexivity.
Qed.

Lemma drop_while_blank_reverse (lines : list pystr) :
  drop_while is_blank (reverse <$> lines)
  = reverse <$> drop_while is_blank lines.
Proof.
  induction lines as [|line rest IH]; [reflexivity|].
  rewrite fmap_cons. destruct line as [|c line]; simpl.
  - exact IH.
  - rewrite reverse_cons.
    destruct (reverse line ++ [c]) as [|d r] eqn:E; [|reflexivity].
    apply app_eq_nil in E as [_ E]. discriminate.
Qed.

Lemma fmap_reverse_involutive (lines : list pystr) :
  reverse <$> (reverse <$> lines) = lines.
Proof.
  induction lines as [|line rest IH]; [reflexivity|].
  rewrite !fmap_cons, reverse_involutive, IH. reflexivity.
Qed.

Lemma strip_join lines :
  Forall (stripped_by isspace) lines ->
  strip (join [NL] lines) = join [NL] (strip_by is_blank lines).
Proof.
  intros H. unfold strip, strip_by.
  rewrite drop_while_join by (eapply Forall_impl; [exact H | intros l [Hl _]; exact Hl]).
  rewrite reverse_join, drop_while_join.
  - rewrite reverse_join. do 2 f_equal.
    rewrite <- fmap_reverse, drop_while_blank_reverse.
    apply fmap_reverse_involutive.
  - apply Forall_reverse, Forall_fmap, drop_while_Forall.
    eapply Forall_impl; [exact H | intros l [_ Hl]; exact Hl].
Qed.

(** ** The normaliser *)

Section NormaliserFacts.
Variable isprintable : N -> bool.

Lemma filter_keep_Forall (s : pystr) :
  Forall (fun c => keep isprintable c = true) (List.filter (keep isprintable) s).
Proof.
  induction s as [|c s IH]; simpl; [constructor|].
  destruct (keep isprintable c) eqn:E; [constructor|]; assumption.
Qed.

Lemma filter_keep_fix (s : pystr) :
  Forall (fun c => keep isprintable c = true) s ->
  List.filter (keep isprintable) s = s.
Proof.
  induction 1 as [|c s Hc Hs IH]; simpl; [reflexivity|].
  rewrite Hc, IH. reflexivity.
Qed.

Lemma keep_NL : keep isprintable NL = true.
Proof. unfold keep. apply orb_true_r. Qed.

(** The lines the normaliser joins, before the final strip. *)
Lemma result_lines_shape (s : pystr) :
  let lines :=
    collapse false (strip <$> split NL (List.filter (keep isprintable) s)) in
  Forall (stripped_by isspace) lines
  /\ Forall (line_chars isprintable) lines
  /\ no_blank_run lines.
Proof.
  intros lines. subst lines. split; [|split].
  - apply collapse_Forall; [split; exact I|].
    apply Forall_fmap, Forall_true. intros l. apply strip_by_stripped.
  - apply collapse_Forall; [constructor|].
    apply Forall_fmap.
    pose proof (split_no_sep NL (List.filter (keep isprintable) s)) as Hsep.
    pose proof (split_Forall _ NL _ (filter_keep_Forall s)) as Hkeep.
    rewrite Forall_forall in Hsep, Hkeep. apply Forall_forall.
    intros l Hl. simpl. apply strip_by_Forall. apply Forall_forall.
    intros c Hc. split.
    + specialize (Hkeep l Hl). rewrite Forall_forall in Hkeep. auto.
    + intros ->. exact (Hsep l Hl Hc).
  - apply collapse_shape.
Qed.

Lemma clean_normal_lines (s : pystr) :
  exists lines,
    clean_extracted_text isprintable s = join [NL] lines
    /\ normal_lines isprintable lines.
Proof.
  unfold clean_extracted_text. destruct s as [|c s]; simpl negb; cbv iota.
  - exists []. split; [reflexivity|].
    repeat split; try constructor. apply no_blank_run_nil.
  - rewrite remove_blank_runs_collapse.
    destruct (result_lines_shape (c :: s)) as (Hs & Hc & Hr).
    eexists. split; [apply strip_join, Hs|].
    split; [|split; [|split]].
    + apply strip_by_Forall, Hs.
    + apply strip_by_Forall, Hc.
    + apply no_blank_run_strip_by, Hr.
    + apply strip_by_stripped.
Qed.

Lemma clean_join_normal (lines : list pystr) :
  normal_lines isprintable lines ->
  clean_extracted_text isprintable (join [NL] lines) = join [NL] lines.
Proof.
  intros (Hs & Hc & Hr & Ht). unfold clean_extracted_text.
  destruct (join [NL] lines) as [|c s] eqn:E; [reflexivity|].
  simpl negb. cbv iota. rewrite <- E.
  assert (Hne : lines <> []) by (intros ->; discriminate).
  rewrite filter_keep_fix.
  2:{ apply join_Forall.
      - repeat constructor. apply keep_NL.
      - eapply Forall_impl; [exact Hc|]. intros l Hl.
        eapply Forall_impl; [exact Hl|]. intros x [Hx _]. exact Hx. }
  rewrite split_join; [|exact Hne|].
  2:{ eapply Forall_impl; [exact Hc|]. intros l Hl Hin.
      unfold line_chars in Hl.
      rewrite Forall_forall in Hl. destruct (Hl NL Hin) as [_ Hn]. congruence. }
  assert (Hmap : strip <$> lines = lines).
  { clear -Hs. induction Hs as [|l ls Hl Hls IH]; [reflexivity|].
    rewrite fmap_cons, IH. f_equal. apply strip_by_fix, Hl. }
  rewrite Hmap, remove_blank_runs_collapse.
  rewrite collapse_fix by (exact Hr || discriminate).
  rewrite strip_join by exact Hs.
  rewrite strip_by_fix by exact Ht. reflexivity.
Qed.
End NormaliserFacts.

(** C2. The text normaliser is idempotent: cleaning an already cleaned
    string returns it unchanged, whatever the interpreter's table of
    printable characters. *)
Theorem clean_extracted_text_idempotent (isprintable : N -> bool) (s : pystr) :
  clean_extracted_text isprintable (clean_extracted_text isprintable s)
  = clean_extracted_text isprintable s.
Proof.
  destruct (clean_normal_lines isprintable s) as (lines & -> & Hn).
  apply clean_join_normal, Hn.
Qed.

(** ** Runs of blank lines *)

Lemma split_app_sep sep x y :
  split sep (x ++ sep :: y) = split sep x ++ split sep y.
Proof.
  induction x as [|c x IH]; simpl.
  - rewrite N.eqb_refl. reflexivity.
  - destruct (c =? sep); rewrite IH; [reflexivity|].
    destruct (split sep x) as [|l ls] eqn:E; [|reflexivity].
    destruct (split_not_nil _ _ E).
Qed.

Lemma split_newlines k y :
  split NL (replicate k NL ++ y) = replicate k [] ++ split NL y.
Proof. induction k as [|k IH]; simpl; [reflexivity|]. rewrite IH. reflexivity. Qed.

Lemma collapse_blank_run prev_blank n rest :
  collapse prev_blank (replicate (S n) [] ++ rest)
  = collapse prev_blank ([] :: rest).
Proof.
  induction n as [|n IH]; [reflexivity|].
  rewrite <- IH. destruct prev_blank; reflexivity.
Qed.

Lemma collapse_app_congr before lines lines' :
  (forall pb, collapse pb lines = collapse pb lines') ->
  forall pb, collapse pb (before ++ lines) = collapse pb (before ++ lines').
Proof.
  intros H. induction before as [|l before IH]; intros pb; simpl; [apply H|].
  destruct (truthy l); [|destruct pb; simpl]; rewrite IH; reflexivity.
Qed.

Lemma collapse_after_blank lines :
  head_ok is_blank lines -> collapse true lines = collapse false lines.
Proof. destruct lines as [|[|c l] rest]; simpl; [reflexivity|discriminate|reflexivity]. Qed.

(** After a non-blank last line the loop is back in its initial mode. *)
Lemma fold_blank_step_app before lines :
  head_ok is_blank (reverse before) ->
  remove_blank_runs (before ++ lines)
  = remove_blank_runs before ++ remove_blank_runs lines.
Proof.
  unfold remove_blank_runs. rewrite fold_left_app.
  destruct before as [|l before _] using rev_ind; intros H.
  - simpl. rewrite fold_blank_step. reflexivity.
  - rewrite reverse_app in H. simpl in H.
    rewrite fold_left_app. simpl fold_left at 2. simpl fold_left at 3.
    destruct (fold_left blank_step before ([], false)) as [acc pb].
    destruct l as [|c l]; [discriminate|]. simpl.
    rewrite fold_blank_step, fold_blank_step. reflexivity.
Qed.

Section CleanFacts.
Variable isprintable : N -> bool.

Lemma clean_nonempty (s : pystr) :
  s <> [] ->
  clean_extracted_text isprintable s
  = strip (join [NL] (collapse false
      (strip <$> split NL (List.filter (keep isprintable) s)))).
Proof.
  intros H. unfold clean_extracted_text.
  destruct s; [congruence|]. simpl negb. cbv iota.
  rewrite remove_blank_runs_collapse. reflexivity.
Qed.

Lemma filter_keep_newlines k :
  List.filter (keep isprintable) (replicate k NL) = replicate k NL.
Proof.
  induction k as [|k IH]; [reflexivity|].
  simpl. rewrite keep_NL, IH. reflexivity.
Qed.

Lemma clean_lines_newlines x k y :
  strip <$> split NL
    (List.filter (keep isprintable) (x ++ replicate (S k) NL ++ y))
  = (strip <$> split NL (List.filter (keep isprintable) x))
    ++ replicate k []
    ++ (strip <$> split NL (List.filter (keep isprintable) y)).
Proof.
  rewrite !List.filter_app, filter_keep_newlines.
  change (replicate (S k) NL ++ ?z) with (NL :: (replicate k NL ++ z)).
  rewrite split_app_sep, split_newlines, !fmap_app, fmap_replicate.
  reflexivity.
Qed.

Lemma clean_newline_run x n y :
  clean_extracted_text isprintable (x ++ replicate (n + 2) NL ++ y)
  = clean_extracted_text isprintable (x ++ [NL; NL] ++ y).
Proof.
  rewrite !clean_nonempty.
  2:{ intros E. apply app_eq_nil in E as [_ E]. discriminate. }
  2:{ intros E. apply app_eq_nil in E as [_ E].
      rewrite Nat.add_comm in E. discriminate. }
  change [NL; NL] with (replicate 2 NL).
  rewrite Nat.add_comm. change (2 + n)%nat with (S (S n)).
  rewrite !clean_lines_newlines. do 2 f_equal.
  apply collapse_app_congr. intros pb.
  rewrite collapse_blank_run. reflexivity.
Qed.

Lemma clean_no_blank_run (s : pystr) :
  no_blank_run (split NL (clean_extracted_text isprintable s)).
Proof.
  destruct (clean_normal_lines isprintable s) as (lines & -> & _ & Hc & Hr & _).
  destruct lines as [|l lines].
  - simpl. apply no_blank_run_cons; [apply no_blank_run_nil | intros _; exact I].
  - rewrite split_join; [exact Hr | discriminate |].
    eapply Forall_impl; [exact Hc|]. intros l' Hl Hin. unfold line_chars in Hl.
    rewrite Forall_forall in Hl. destruct (Hl NL Hin) as [_ Hn]. congruence.
Qed.

Lemma clean_ext (isprintable' : N -> bool) (s : pystr) :
  Forall (fun c => keep isprintable c = keep isprintable' c) s ->
  clean_extracted_text isprintable s = clean_extracted_text isprintable' s.
Proof.
  intros H. unfold clean_extracted_text.
  replace (List.filter (keep isprintable) s)
    with (List.filter (keep isprintable') s); [reflexivity|].
  induction H as [|c s Hc Hs IH]; [reflexivity|].
  simpl. rewrite Hc, IH. reflexivity.
Qed.
End CleanFacts.

Lemma isprintable_latin1_ascii c :
  32 <= c <= 126 -> isprintable_latin1 c = true.
Proof.
  intros [Hlo Hhi]. unfold isprintable_latin1.
  apply N.leb_le in Hlo, Hhi. rewrite Hlo, Hhi. reflexivity.
Qed.

(** C3. The normaliser collapses every run of consecutive empty lines to
    exactly one empty line. In the loop, a run of [n + 1] empty lines
    between a non-blank end and a non-blank start leaves one empty line;
    in the whole function, a text with a longer run of newlines is
    normalised as the text with two newlines in its place; no two
    consecutive empty lines are left among the lines of the output; and
    "Hello\n\n\n\nWorld" becomes "Hello\n\nWorld" as soon as the
    interpreter counts the visible ASCII characters as printable. *)
Theorem blank_runs_collapse_to_one (isprintable : N -> bool) :
  (forall c, 32 <= c <= 126 -> isprintable c = true) ->
  (forall before n after,
      head_ok is_blank (reverse before) -> head_ok is_blank after ->
      remove_blank_runs (before ++ replicate (S n) [] ++ after)
      = remove_blank_runs before ++ [[]] ++ remove_blank_runs after)
  /\ (forall x n y,
      clean_extracted_text isprintable (x ++ replicate (n + 2) NL ++ y)
      = clean_extracted_text isprintable (x ++ [NL; NL] ++ y))
  /\ (forall s,
      no_blank_run (split NL (clean_extracted_text isprintable s)))
  /\ clean_extracted_text isprintable
       (py "Hello" ++ [NL; NL; NL; NL] ++ py "World")
     = py "Hello" ++ [NL; NL] ++ py "World".
Proof.
  intros Hascii. split; [|split; [|split]].
  - intros before n after Hb Ha.
    rewrite (fold_blank_step_app before _ Hb). f_equal.
    rewrite !remove_blank_runs_collapse, collapse_blank_run. simpl.
    rewrite (collapse_after_blank after Ha). reflexivity.
  - apply clean_newline_run.
  - apply clean_no_blank_run.
  - rewrite (clean_ext isprintable isprintable_latin1).
    + vm_compute. reflexivity.
    + assert (Hk : forall c, 32 <= c <= 126 ->
               keep isprintable c = keep isprintable_latin1 c).
      { intros c Hc. unfold keep.
        rewrite (Hascii c Hc), (isprintable_latin1_ascii c Hc). reflexivity. }
      assert (Hn : keep isprintable NL = keep isprintable_latin1 NL)
        by (rewrite !keep_NL; reflexivity).
      repeat (apply Forall_cons; split;
              [first [exact Hn | apply Hk; unfold NL; simpl; lia]|]).
      apply Forall_nil_2.
Qed.

Lemma blank_runs_collapse_to_one_witness :
  (forall c, 32 <= c <= 126 -> isprintable_latin1 c = true)
  /\ no_blank_run
       (split NL (clean_extracted_text isprintable_latin1
                    ([NL; NL] ++ py "a" ++ [NL; SPACE; NL; NL] ++ py "b")))
  /\ clean_extracted_text isprintable_latin1
       (py "Hello" ++ [NL; NL; NL; NL] ++ py "World")
     = py "Hello" ++ [NL; NL] ++ py "World".
Proof.
  assert (H : forall c, 32 <= c <= 126 -> isprintable_latin1 c = true).
  { intros c [Hlo Hhi]. unfold isprintable_latin1.
    apply N.leb_le in Hlo, Hhi. rewrite Hlo, Hhi. reflexivity. }
  split; [exact H|].
  destruct (blank_runs_collapse_to_one isprintable_latin1 H) as (_ & _ & Hr & He).
  split; [apply Hr | exact He].
Defined.

(** ** Content and stripping *)

Lemma truthy_reverse {A} (l : list A) : truthy (reverse l) = truthy l.
Proof.
  destruct l as [|x l]; [reflexivity|]. rewrite reverse_cons.
  destruct (reverse l); reflexivity.
Qed.

Lemma existsb_reverse {A} (f : A -> bool) l :
  existsb f (reverse l) = existsb f l.
Proof.
  induction l as [|x l IH]; [reflexivity|].
  rewrite reverse_cons, existsb_app, IH. simpl.
  rewrite orb_false_r. apply orb_comm.
Qed.

Section ContentFacts.
Context {A : Type} (P : A -> bool).

Lemma existsb_drop_while l :
  existsb (fun x => negb (P x)) (drop_while P l)
  = existsb (fun x => negb (P x)) l.
Proof.
  induction l as [|x l IH]; [reflexivity|]. simpl.
  destruct (P x) eqn:E; simpl; [exact IH | rewrite E; reflexivity].
Qed.

Lemma truthy_drop_while l :
  truthy (drop_while P l) = existsb (fun x => negb (P x)) l.
Proof.
  induction l as [|x l IH]; [reflexivity|]. simpl.
  destruct (P x); [exact IH | reflexivity].
Qed.

Lemma truthy_strip_by l :
  truthy (strip_by P l) = existsb (fun x => negb (P x)) l.
Proof.
  unfold strip_by.
  rewrite truthy_reverse, truthy_drop_while, existsb_reverse.
  apply existsb_drop_while.
Qed.
End ContentFacts.

Lemma truthy_strip s : truthy (strip s) = has_content s.
Proof. apply truthy_strip_by. Qed.

(** ** The page loop of the PDF extractor *)

Lemma prints_return_app w printed (a b : list pystr) :
  prints_return w printed (a ++ b)
  = prints_return w printed a && prints_return w (printed ++ a) b.
Proof.
  revert printed. induction a as [|line a IH]; intros printed; simpl.
  - rewrite app_nil_r. reflexivity.
  - destruct (stderr_print w printed line); [|reflexivity].
    rewrite IH, <- app_assoc. reflexivity.
Qed.

Ltac run_page_step :=
  unfold pdf_page_step, page_text, ocr_page, page_diagnostics, native_page,
    run_ocr;
  unfold mbind, M_bind, outcome_bind, call, try_except, print_stderr, mret,
    M_ret; simpl.

Lemma pdf_page_step_spec w full_text pages_processed ocr_pages page_num p stderr :
  readable_page p ->
  prints_return w stderr (page_diagnostics page_num p) = true ->
  pdf_page_step w (full_text, pages_processed, ocr_pages)
                (page_num, Returns p) stderr
  = (Returns (full_text ++ page_text p,
              (pages_processed + 1)%Z,
              (ocr_pages + (if ocr_page p then 1 else 0))%Z),
     stderr ++ page_diagnostics page_num p).
Proof.
  intros [text Ht]. destruct p as [gt gp]. simpl in Ht. subst gt.
  run_page_step.
  rewrite truthy_strip. destruct (has_content text); simpl.
  { intros _. rewrite Z.add_0_r, app_nil_r. reflexivity. }
  destruct gp as [[[[[[[ocr_text|e]]|e]]|e]]|e]; simpl;
    rewrite ?truthy_strip; try destruct (has_content ocr_text); simpl;
    rewrite ?Z.add_0_r, ?app_nil_r; try (intros _; reflexivity);
    (destruct (stderr_print w stderr _); [intros _; reflexivity | discriminate]).
Qed.

Lemma pdf_page_step_print_raises
    w full_text pages_processed ocr_pages page_num p stderr :
  readable_page p ->
  prints_return w stderr (page_diagnostics page_num p) = false ->
  exists e,
    pdf_page_step w (full_text, pages_processed, ocr_pages)
                  (page_num, Returns p) stderr
    = (Raises e, stderr).
Proof.
  intros [text Ht]. destruct p as [gt gp]. simpl in Ht. subst gt.
  run_page_step.
  rewrite truthy_strip. destruct (has_content text); simpl; [discriminate|].
  destruct gp as [[[[[[[ocr_text|e]]|e]]|e]]|e]; simpl;
    try discriminate;
    (destruct (stderr_print w stderr _) as [[]|e']; [discriminate|];
     intros _; exists e'; reflexivity).
Qed.

Lemma count_cons {A} (f : A -> bool) x l :
  count f (x :: l) = ((if f x then 1 else 0) + count f l)%Z.
Proof.
  unfold count, len. simpl. destruct (f x); simpl length; lia.
Qed.

Lemma count_bounds {A} (f : A -> bool) l : (0 <= count f l <= len l)%Z.
Proof.
  induction l as [|x l IH]; [unfold count, len; simpl; lia|].
  rewrite count_cons. unfold len in *. simpl length. destruct (f x); lia.
Qed.

Lemma pdf_loop_spec w pages :
  forall k full_text pages_processed ocr_pages stderr,
  Forall readable_page pages ->
  prints_return w stderr (diagnostics_from k pages) = true ->
  for_each (pdf_page_step w) (enumerate_from k (Returns <$> pages))
           (full_text, pages_processed, ocr_pages) stderr
  = (Returns (full_text ++ concat (page_text <$> pages),
              (pages_processed + len pages)%Z,
              (ocr_pages + count ocr_page pages)%Z),
     stderr ++ diagnostics_from k pages).
Proof.
  induction pages as [|p pages IH]; intros k ft pp op stderr H Hprints.
  - simpl. unfold mret, M_ret, count, len. simpl.
    rewrite !Z.add_0_r, !app_nil_r. reflexivity.
  - inversion H as [|? ? Hp Hrest]; subst.
    simpl diagnostics_from in Hprints. rewrite prints_return_app in Hprints.
    apply andb_true_iff in Hprints as [Hprint Hprints].
    rewrite fmap_cons. cbn [enumerate_from for_each].
    unfold mbind at 1. unfold M_bind at 1.
    rewrite (pdf_page_step_spec _ _ _ _ _ _ _ Hp Hprint),
      (IH _ _ _ _ _ Hrest Hprints).
    rewrite count_cons. unfold len. simpl.
    rewrite <- !app_assoc, Z.add_assoc.
    replace (Z.of_nat (S (length pages))) with (1 + Z.of_nat (length pages))%Z
      by lia.
    rewrite Z.add_assoc. reflexivity.
Qed.

Lemma pdf_page_step_returns w st page_num item stderr st' stderr' :
  pdf_page_step w st (page_num, item) stderr = (Returns st', stderr') ->
  exists p,
    item = Returns p /\ readable_page p
    /\ prints_return w stderr (page_diagnostics page_num p) = true.
Proof.
  destruct st as [[ft pp] op]. intros H.
  assert (Hp : exists p, item = Returns p /\ readable_page p).
  { revert H. unfold pdf_page_step.
    unfold mbind at 1. unfold M_bind at 1. unfold call at 1.
    destruct item as [p|e]; [|discriminate].
    unfold mbind at 1. unfold M_bind at 1. unfold call at 1.
    destruct (get_text p) as [text|e] eqn:E; [|discriminate].
    intros _. exists p. split; [reflexivity | exists text; exact E]. }
  destruct Hp as (p & -> & Hp). exists p. split; [reflexivity|].
  split; [exact Hp|].
  destruct (prints_return w stderr (page_diagnostics page_num p)) eqn:E;
    [reflexivity|].
  destruct (pdf_page_step_print_raises w ft pp op page_num p stderr Hp E)
    as [e He].
  rewrite He in H. discriminate H.
Qed.

Lemma pdf_loop_returns w items : forall k st stderr st' stderr',
  for_each (pdf_page_step w) (enumerate_from k items) st stderr
  = (Returns st', stderr') ->
  exists pages,
    items = Returns <$> pages /\ Forall readable_page pages
    /\ prints_return w stderr (diagnostics_from k pages) = true.
Proof.
  induction items as [|item items IH]; intros k st stderr st' stderr' H.
  - exists []. split; [reflexivity|]. split; [constructor | reflexivity].
  - simpl in H. unfold mbind at 1 in H. unfold M_bind at 1 in H.
    destruct (pdf_page_step w st (k, item) stderr) as [[st1|e] stderr1] eqn:E;
      [|discriminate].
    destruct (pdf_page_step_returns _ _ _ _ _ _ _ E) as (p & -> & Hp & Hprint).
    destruct st as [[ft pp] op].
    rewrite (pdf_page_step_spec _ _ _ _ _ _ _ Hp Hprint) in E.
    injection E as <- <-.
    apply IH in H as (pages & -> & Hpages & Hprints).
    exists (p :: pages). split; [reflexivity|].
    split; [constructor; assumption|].
    simpl diagnostics_from. rewrite prints_return_app, Hprint, Hprints.
    reflexivity.
Qed.

(** ** The extractors *)

Ltac run_monad :=
  unfold mbind, M_bind, mret, M_ret, call, try_except, print_stderr; simpl.

Ltac step_monad :=
  unfold mbind, M_bind, mret, M_ret, call, try_except, print_stderr;
  cbv beta iota.

Section ParserFacts.
Variable isprintable : N -> bool.
Variable lower : pystr -> pystr.
Variable w : world.

Lemma extract_text_from_pdf_reads file_path pages stderr :
  pdf_reads w file_path pages ->
  prints_return w stderr (diagnostics_from 0 pages) = true ->
  let clean_text :=
    clean_extracted_text isprintable (concat (page_text <$> pages)) in
  extract_text_from_pdf isprintable w file_path stderr
  = (Returns {[ "text" := VStr clean_text;
                "pages_processed" := VInt (len pages);
                "ocr_pages" := VInt (count ocr_page pages);
                "length" := VInt (len clean_text);
                "method" := VStr (py "PyMuPDF + OCR") ]},
     stderr ++ diagnostics_from 0 pages).
Proof.
  intros (doc & Hopen & Hpages & Hread & Hclose) Hprints clean_text.
  unfold extract_text_from_pdf, try_except.
  unfold mbind at 1. unfold M_bind at 1. unfold call at 1. rewrite Hopen.
  unfold mbind at 1. unfold M_bind at 1. unfold enumerate.
  rewrite Hpages, (pdf_loop_spec w pages _ _ _ _ _ Hread Hprints).
  rewrite Hclose. reflexivity.
Qed.

Lemma extract_text_from_pdf_form file_path stderr :
  exists r stderr',
    extract_text_from_pdf isprintable w file_path stderr = (Returns r, stderr')
    /\ result_form isprintable r.
Proof.
  unfold extract_text_from_pdf, try_except.
  unfold mbind at 1. unfold M_bind at 1. unfold call at 1.
  destruct (fitz_open w file_path) as [doc|e].
  2:{ do 2 eexists. split; [reflexivity | constructor]. }
  unfold mbind at 1. unfold M_bind at 1.
  destruct (for_each (pdf_page_step w) (enumerate (doc_pages doc)) ([], 0%Z, 0%Z) stderr)
    as [[[[ft pp] op]|e] stderr1].
  2:{ do 2 eexists. split; [reflexivity | constructor]. }
  run_monad. destruct (doc_close doc) as [[]|e];
    do 2 eexists; (split; [reflexivity | constructor]).
Qed.

Lemma extract_text_from_pdf_success file_path stderr r stderr' :
  extract_text_from_pdf isprintable w file_path stderr = (Returns r, stderr') ->
  r !! "error" = None ->
  exists pages,
    pdf_reads w file_path pages
    /\ prints_return w stderr (diagnostics_from 0 pages) = true.
Proof.
  unfold extract_text_from_pdf, try_except, pdf_reads.
  unfold mbind at 1. unfold M_bind at 1. unfold call at 1.
  destruct (fitz_open w file_path) as [doc|e].
  2:{ run_monad. intros [= <- _] Herr. discriminate. }
  unfold mbind at 1. unfold M_bind at 1.
  destruct (for_each (pdf_page_step w) (enumerate (doc_pages doc)) ([], 0%Z, 0%Z) stderr)
    as [[[[ft pp] op]|e] stderr1] eqn:Eloop.
  2:{ run_monad. intros [= <- _] Herr. discriminate. }
  apply pdf_loop_returns in Eloop as (pages & Hpages & Hread & Hprints).
  run_monad. destruct (doc_close doc) as [[]|e] eqn:Eclose.
  - intros _ _. exists pages. split; [exists doc; auto | exact Hprints].
  - intros [= <- _] Herr. discriminate.
Qed.
End ParserFacts.

Lemma has_content_join sep l ls :
  has_content l = true -> has_content (join sep (l :: ls)) = true.
Proof.
  intros H. unfold has_content in *. destruct ls as [|l' ls]; [exact H|].
  rewrite join_cons, existsb_app, H. reflexivity.
Qed.

Lemma kept_paragraphs_eq doc :
  p_text <$> List.filter (fun p => truthy (strip (p_text p))) (doc_paragraphs doc)
  = kept_paragraphs doc.
Proof.
  unfold kept_paragraphs. f_equal. apply List.filter_ext.
  intros p. apply truthy_strip.
Qed.

Lemma kept_paragraphs_content doc :
  (exists p, p ∈ doc_paragraphs doc /\ has_content (p_text p) = true) ->
  has_content (join [NL] (kept_paragraphs doc)) = true.
Proof.
  intros (p & Hin & Hp). unfold kept_paragraphs.
  assert (Hk : In p (List.filter (fun p => has_content (p_text p))
                                 (doc_paragraphs doc))).
  { apply List.filter_In. split; [apply list_elem_of_In, Hin | exact Hp]. }
  destruct (List.filter _ (doc_paragraphs doc)) as [|q kept] eqn:E;
    [destruct Hk|].
  assert (Hq : In q (List.filter (fun p => has_content (p_text p))
                                 (doc_paragraphs doc)))
    by (rewrite E; left; reflexivity).
  apply List.filter_In in Hq as [_ Hq].
  rewrite fmap_cons. apply has_content_join, Hq.
Qed.

Lemma len_kept_paragraphs doc :
  len (kept_paragraphs doc)
  = count (fun p => has_content (p_text p)) (doc_paragraphs doc).
Proof. unfold kept_paragraphs, count, len. rewrite length_fmap. reflexivity. Qed.

Section DocFacts.
Variable isprintable : N -> bool.
Variable lower : pystr -> pystr.
Variable w : world.

Lemma try_python_docx_content file_path doc stderr :
  docx_Document w file_path = Returns doc ->
  (exists p, p ∈ doc_paragraphs doc /\ has_content (p_text p) = true) ->
  let clean_text :=
    clean_extracted_text isprintable (join [NL] (kept_paragraphs doc)) in
  try_python_docx isprintable w file_path stderr
  = (Returns (Some {[ "text" := VStr clean_text;
                      "paragraphs" := VInt (len (kept_paragraphs doc));
                      "length" := VInt (len clean_text);
                      "method" := VStr (py "python-docx") ]}),
     stderr).
Proof.
  intros Hdoc Hcontent clean_text.
  unfold try_python_docx, try_except.
  unfold mbind at 1. unfold M_bind at 1. unfold call at 1. rewrite Hdoc.
  rewrite kept_paragraphs_eq, truthy_strip.
  rewrite (kept_paragraphs_content doc Hcontent). reflexivity.
Qed.

Lemma try_python_docx_form file_path stderr :
  exists o stderr',
    try_python_docx isprintable w file_path stderr = (o, stderr')
    /\ match o with
       | Returns (Some r) => result_form isprintable r
       | _ => True
       end.
Proof.
  unfold try_python_docx, try_except.
  unfold mbind at 1. unfold M_bind at 1. unfold call at 1.
  destruct (docx_Document w file_path) as [doc|e].
  - destruct (truthy (strip (join [NL] _))); step_monad;
      do 2 eexists; (split; [reflexivity|]); [constructor | exact I].
  - step_monad. destruct (stderr_print w stderr _);
      do 2 eexists; (split; [reflexivity | exact I]).
Qed.

Lemma textract_fallback_form file_path stderr :
  exists r,
    try_except
      (call (import_textract w);;
       raw ← call (textract_process w file_path);
       raw_text ← call (decode_utf8 raw);
       let clean_text := clean_extracted_text isprintable raw_text in
       mret ({[ "text" := VStr clean_text;
                "length" := VInt (len clean_text);
                "method" := VStr (py "textract") ]} : dict))
      (fun textract_error =>
         mret ({[ "error" :=
                    VStr (py "Textract extraction failed: "
                          ++ str_exn textract_error) ]} : dict)) stderr
    = (Returns r, stderr)
    /\ result_form isprintable r.
Proof.
  run_monad. destruct (import_textract w) as [[]|e].
  2:{ eexists. split; [reflexivity | constructor]. }
  destruct (textract_process w file_path) as [raw|e].
  2:{ eexists. split; [reflexivity | constructor]. }
  destruct (decode_utf8 raw) as [raw_text|e];
    eexists; (split; [reflexivity | constructor]).
Qed.

Lemma extract_text_from_doc_form file_path stderr :
  exists r stderr',
    extract_text_from_doc isprintable lower w file_path stderr
    = (Returns r, stderr')
    /\ result_form isprintable r.
Proof.
  unfold extract_text_from_doc. unfold try_except at 1.
  unfold mbind at 1. unfold M_bind at 1.
  assert (H : exists o stderr',
    (if bool_decide (lower (splitext file_path).2 = py ".docx")
     then try_python_docx isprintable w file_path
     else mret None) stderr = (o, stderr')
    /\ match o with
       | Returns (Some r) => result_form isprintable r
       | _ => True
       end).
  { destruct (bool_decide _).
    - apply try_python_docx_form.
    - do 2 eexists. split; [reflexivity | exact I]. }
  destruct H as (o & stderr1 & -> & Hform).
  destruct o as [[r|]|e].
  - do 2 eexists. split; [reflexivity | exact Hform].
  - destruct (textract_fallback_form file_path stderr1) as (r & Hrun & Hr).
    exists r, stderr1. split; [|exact Hr]. cbv beta iota.
    match goal with
    | |- (let (_, _) := ?m in _) = _ =>
        assert (E : m = (Returns r, stderr1)) by exact Hrun; rewrite E
    end.
    reflexivity.
  - do 2 eexists. split; [reflexivity | constructor].
Qed.

Lemma extract_text_form file_path stderr :
  exists r stderr',
    extract_text isprintable lower w file_path stderr = (Returns r, stderr')
    /\ result_form isprintable r.
Proof.
  unfold extract_text. unfold try_except at 1.
  destruct (bool_decide (lower (splitext file_path).2 = py ".pdf")).
  { destruct (extract_text_from_pdf_form isprintable w file_path stderr)
      as (r & stderr1 & -> & Hr).
    do 2 eexists. split; [reflexivity | exact Hr]. }
  destruct (bool_decide (lower (splitext file_path).2 ∈ [py ".doc"; py ".docx"])).
  { destruct (extract_text_from_doc_form file_path stderr)
      as (r & stderr1 & -> & Hr).
    do 2 eexists. split; [reflexivity | exact Hr]. }
  destruct (bool_decide (lower (splitext file_path).2 = py ".txt")).
  - run_monad. destruct (open_utf8 w file_path) as [f|e].
    2:{ do 2 eexists. split; [reflexivity | constructor]. }
    destruct (read f) as [text|e];
      do 2 eexists; (split; [reflexivity | constructor]).
  - do 2 eexists. split; [reflexivity | constructor].
Qed.
End DocFacts.

(** ** Result records *)

Lemma result_form_tagged isprintable r :
  result_form isprintable r ->
  (success_record r /\ ~ error_record r)
  \/ (error_record r /\ ~ success_record r).
Proof.
  intros [raw pp op clean_text|raw n clean_text|raw clean_text|raw clean_text|msg];
    try clearbody clean_text.
  1-4: left; split;
    [ split; [|split]; [eexists; reflexivity | eexists; reflexivity | reflexivity]
    | intros [[msg Hmsg] _]; discriminate Hmsg ].
  right. split.
  - split; [exists msg; reflexivity | apply dom_singleton_L].
  - intros ([text Ht] & _). discriminate Ht.
Qed.

Lemma result_form_length isprintable r :
  result_form isprintable r -> r !! "error" = None ->
  length_of_text isprintable r.
Proof.
  intros [raw pp op clean_text|raw n clean_text|raw clean_text|raw clean_text|msg]
    Herr.
  1-4: exists raw; simpl; fold clean_text; clearbody clean_text;
    split; reflexivity.
  discriminate Herr.
Qed.

(** C1. Whatever the path and whatever the libraries and files do,
    [extract_text] returns a record that is a tagged union: it has the
    success fields [text] and [method] and no [error], or it has the
    single field [error]; one of the two and never both. *)
Theorem extract_text_tagged_union
    (isprintable : N -> bool) (lower : pystr -> pystr) (w : world)
    (file_path : pystr) (stderr : list pystr) :
  exists r stderr',
    extract_text isprintable lower w file_path stderr = (Returns r, stderr')
    /\ ((success_record r /\ ~ error_record r)
        \/ (error_record r /\ ~ success_record r)).
Proof.
  destruct (extract_text_form isprintable lower w file_path stderr)
    as (r & stderr' & Hrun & Hform).
  exists r, stderr'. split; [exact Hrun|].
  eapply result_form_tagged, Hform.
Qed.

(** C10. [extract_text] is total: for every path and every behaviour of
    the libraries and of the file system (calls that raise included) it
    returns a record and raises nothing; so do the two extractors it
    dispatches to. *)
Theorem extract_text_never_raises
    (isprintable : N -> bool) (lower : pystr -> pystr) (w : world)
    (file_path : pystr) (stderr : list pystr) :
  (exists r stderr',
      extract_text isprintable lower w file_path stderr = (Returns r, stderr'))
  /\ (exists r stderr',
      extract_text_from_pdf isprintable w file_path stderr
      = (Returns r, stderr'))
  /\ (exists r stderr',
      extract_text_from_doc isprintable lower w file_path stderr
      = (Returns r, stderr')).
Proof.
  split; [|split].
  - destruct (extract_text_form isprintable lower w file_path stderr)
      as (r & stderr' & Hrun & _). eauto.
  - destruct (extract_text_from_pdf_form isprintable w file_path stderr)
      as (r & stderr' & Hrun & _). eauto.
  - destruct (extract_text_from_doc_form isprintable lower w file_path stderr)
      as (r & stderr' & Hrun & _). eauto.
Qed.

(** C4. In every successful result, of [extract_text] or of one of the
    two extractors, [length] is the number of characters of the [text]
    returned, which is a normalised text. *)
Theorem length_counts_normalised_text
    (isprintable : N -> bool) (lower : pystr -> pystr) (w : world)
    (file_path : pystr) (stderr : list pystr) (r : dict)
    (stderr' : list pystr) :
  extract_text isprintable lower w file_path stderr = (Returns r, stderr')
  \/ extract_text_from_pdf isprintable w file_path stderr = (Returns r, stderr')
  \/ extract_text_from_doc isprintable lower w file_path stderr
     = (Returns r, stderr') ->
  r !! "error" = None ->
  length_of_text isprintable r.
Proof.
  intros Hrun. apply result_form_length.
  destruct Hrun as [Hrun|[Hrun|Hrun]].
  - destruct (extract_text_form isprintable lower w file_path stderr)
      as (r1 & stderr1 & Hrun1 & Hform). congruence.
  - destruct (extract_text_from_pdf_form isprintable w file_path stderr)
      as (r1 & stderr1 & Hrun1 & Hform). congruence.
  - destruct (extract_text_from_doc_form isprintable lower w file_path stderr)
      as (r1 & stderr1 & Hrun1 & Hform). congruence.
Qed.

Lemma length_counts_normalised_text_witness :
  let w := sample_world [] [] (py "A" ++ [NL; NL; NL] ++ py "B" ++ [NL]) in
  let r : dict := {[ "text" := VStr (py "A" ++ [NL; NL] ++ py "B");
                     "length" := VInt 4;
                     "method" := VStr (py "direct text read") ]} in
  extract_text isprintable_latin1 lower_ascii w (py "notes.txt") [] = (Returns r, [])
  /\ length_of_text isprintable_latin1 r.
Proof.
  intros w r.
  assert (Hrun : extract_text isprintable_latin1 lower_ascii w (py "notes.txt") []
                 = (Returns r, [])) by (vm_compute; reflexivity).
  split; [exact Hrun|].
  apply (length_counts_normalised_text isprintable_latin1 lower_ascii w
           (py "notes.txt") [] r []).
  - left. exact Hrun.
  - reflexivity.
Defined.

(** C9. A path whose extension, lower-cased, is none of [.pdf], [.doc],
    [.docx] and [.txt] gives an error record whose message names that
    extension; no library or file is consulted, so the record is the
    same whatever the file holds, and nothing is printed. *)
Theorem unsupported_extension_error
    (isprintable : N -> bool) (lower : pystr -> pystr) (w : world)
    (file_path : pystr) (stderr : list pystr) :
  let ext := lower (splitext file_path).2 in
  ext ∉ [py ".pdf"; py ".doc"; py ".docx"; py ".txt"] ->
  extract_text isprintable lower w file_path stderr
  = (Returns {[ "error" :=
                  VStr (py "Unsupported file type: " ++ ext
                        ++ py ". Only PDF, DOC, DOCX, TXT supported.") ]},
     stderr).
Proof.
  intros ext Hext. unfold extract_text, try_except. fold ext.
  rewrite !not_elem_of_cons in Hext.
  destruct Hext as (Hpdf & Hdoc & Hdocx & Htxt & _).
  rewrite (bool_decide_eq_false_2 _ Hpdf), (bool_decide_eq_false_2 _ Htxt).
  rewrite (bool_decide_eq_false_2 (ext ∈ [py ".doc"; py ".docx"])).
  - reflexivity.
  - rewrite !not_elem_of_cons. repeat split; auto using not_elem_of_nil.
Qed.

Lemma unsupported_extension_error_witness :
  extract_text isprintable_latin1 lower_ascii
    (sample_world [page_with_text (py "%PDF")] [] (py "text"))
    (py "scans/report.XYZ") []
  = (Returns {[ "error" :=
                  VStr (py "Unsupported file type: .xyz. Only PDF, DOC, DOCX, TXT supported.") ]},
     []).
Proof.
  apply (unsupported_extension_error isprintable_latin1 lower_ascii
           (sample_world [page_with_text (py "%PDF")] [] (py "text"))
           (py "scans/report.XYZ") []).
  vm_compute. intros H. repeat (apply elem_of_cons in H as [H|H]; [discriminate H|]).
  apply elem_of_nil in H. exact H.
Defined.

Lemma sample_world_pdf_reads pages paragraphs contents file_path :
  Forall readable_page pages ->
  pdf_reads (sample_world pages paragraphs contents) file_path pages.
Proof. intros H. eexists. simpl. repeat split. exact H. Qed.

(** C8. A [.docx] file that python-docx opens and that has a paragraph
    with content is read by the structured strategy: the method is
    [python-docx], [paragraphs] is the number of paragraphs with content
    (those of whitespace only are left out), and the text is the
    normalised join of the kept paragraphs; nothing is printed. *)
Theorem docx_structured_extraction
    (isprintable : N -> bool) (lower : pystr -> pystr) (w : world)
    (file_path : pystr) (doc : docx_document) (stderr : list pystr) :
  lower (splitext file_path).2 = py ".docx" ->
  docx_Document w file_path = Returns doc ->
  (exists p, p ∈ doc_paragraphs doc /\ has_content (p_text p) = true) ->
  exists r,
    extract_text_from_doc isprintable lower w file_path stderr
    = (Returns r, stderr)
    /\ extract_text isprintable lower w file_path stderr = (Returns r, stderr)
    /\ r !! "method" = Some (VStr (py "python-docx"))
    /\ r !! "paragraphs"
       = Some (VInt (count (fun p => has_content (p_text p))
                           (doc_paragraphs doc)))
    /\ r !! "text"
       = Some (VStr (clean_extracted_text isprintable
                       (join [NL] (kept_paragraphs doc)))).
Proof.
  intros Hext Hdoc Hcontent.
  assert (Hrun : extract_text_from_doc isprintable lower w file_path stderr
    = (Returns
         {[ "text" := VStr (clean_extracted_text isprintable
                              (join [NL] (kept_paragraphs doc)));
            "paragraphs" := VInt (len (kept_paragraphs doc));
            "length" := VInt (len (clean_extracted_text isprintable
                                     (join [NL] (kept_paragraphs doc))));
            "method" := VStr (py "python-docx") ]}, stderr)).
  { unfold extract_text_from_doc. unfold try_except at 1.
    unfold mbind at 1. unfold M_bind at 1.
    rewrite Hext, bool_decide_eq_true_2 by reflexivity.
    rewrite (try_python_docx_content isprintable w file_path doc stderr Hdoc Hcontent).
    reflexivity. }
  eexists. split; [exact Hrun|]. split; [|split; [|split]].
  - unfold extract_text. unfold try_except at 1. rewrite Hext.
    rewrite (bool_decide_eq_false_2 (py ".docx" = py ".pdf")) by discriminate.
    rewrite (bool_decide_eq_true_2 (py ".docx" ∈ [py ".doc"; py ".docx"]))
      by (apply elem_of_cons; right; apply elem_of_cons; left; reflexivity).
    rewrite Hrun. reflexivity.
  - reflexivity.
  - rewrite <- len_kept_paragraphs.
    generalize (len (kept_paragraphs doc)).
    generalize (clean_extracted_text isprintable (join [NL] (kept_paragraphs doc))).
    reflexivity.
  - generalize (len (kept_paragraphs doc)).
    generalize (clean_extracted_text isprintable (join [NL] (kept_paragraphs doc))).
    reflexivity.
Qed.

Lemma docx_structured_extraction_witness :
  let paragraphs := [py "one"; [SPACE; TAB]; py "two"; py "three"] in
  let w := sample_world [] paragraphs [] in
  exists r,
    extract_text isprintable_latin1 lower_ascii w (py "Notes.DOCX") []
    = (Returns r, [])
    /\ r !! "method" = Some (VStr (py "python-docx"))
    /\ r !! "paragraphs" = Some (VInt 3)
    /\ r !! "text"
       = Some (VStr (py "one" ++ [NL] ++ py "two" ++ [NL] ++ py "three")).
Proof.
  intros paragraphs w.
  destruct (docx_structured_extraction isprintable_latin1 lower_ascii w
              (py "Notes.DOCX")
              {| doc_paragraphs := Build_paragraph <$> paragraphs |} [])
    as (r & _ & Hrun & Hmethod & Hcount & Htext).
  - reflexivity.
  - reflexivity.
  - exists (Build_paragraph (py "one")). split; [left | reflexivity].
  - exists r. split; [exact Hrun|]. split; [exact Hmethod|].
    split; [exact Hcount | exact Htext].
Defined.

(** C8, as the spec has it, fails on the label: the structured strategy
    never reports [structured-docx]; the scenario of three paragraphs with
    content and one of whitespace reports [python-docx]. *)
Lemma docx_method_is_not_structured_docx :
  ~ docx_method_is isprintable_latin1 lower_ascii (py "structured-docx").
Proof.
  intros H.
  pose (paragraphs := [py "one"; [SPACE; TAB]; py "two"; py "three"]).
  destruct (H (sample_world [] paragraphs []) (py "Notes.DOCX")
              {| doc_paragraphs := Build_paragraph <$> paragraphs |} [])
    as (r & stderr' & Hrun & Hmethod).
  - reflexivity.
  - reflexivity.
  - exists (Build_paragraph (py "one")). split; [left | reflexivity].
  - vm_compute in Hrun. injection Hrun as <- _. discriminate Hmethod.
Qed.

(** ** Counters and labels of the PDF extractor *)

Lemma count_none {A} (f g : A -> bool) l :
  forallb g l = true -> (forall x, g x = true -> f x = false) ->
  count f l = 0%Z.
Proof.
  intros Hall Hfg. induction l as [|x l IH]; [reflexivity|].
  simpl in Hall. apply andb_true_iff in Hall as [Hx Hl].
  rewrite count_cons, (Hfg x Hx), (IH Hl). reflexivity.
Qed.

Lemma native_page_not_ocr p : native_page p = true -> ocr_page p = false.
Proof. intros H. unfold ocr_page. rewrite H. reflexivity. Qed.

Lemma pdf_success_record isprintable w file_path stderr r stderr' :
  extract_text_from_pdf isprintable w file_path stderr = (Returns r, stderr') ->
  r !! "error" = None ->
  exists pages,
    pdf_reads w file_path pages
    /\ stderr' = stderr ++ diagnostics_from 0 pages
    /\ r = {[ "text" := VStr (clean_extracted_text isprintable
                                (concat (page_text <$> pages)));
              "pages_processed" := VInt (len pages);
              "ocr_pages" := VInt (count ocr_page pages);
              "length" := VInt (len (clean_extracted_text isprintable
                                       (concat (page_text <$> pages))));
              "method" := VStr (py "PyMuPDF + OCR") ]}.
Proof.
  intros Hrun Herr.
  destruct (extract_text_from_pdf_success isprintable w _ _ _ _ Hrun Herr)
    as (pages & Hreads & Hprints).
  exists pages. split; [exact Hreads|].
  rewrite (extract_text_from_pdf_reads isprintable w _ _ stderr Hreads Hprints)
    in Hrun.
  injection Hrun as <- <-. split; reflexivity.
Qed.

Ltac opaque_text :=
  repeat match goal with
    | |- context [clean_extracted_text ?ip ?s] =>
        generalize (clean_extracted_text ip s); intro
    | |- context [len ?l] => generalize (len l); intro
    | |- context [count ?f ?l] => generalize (count f l); intro
    end.

(** C5, as the code has it. Every successful PDF extraction carries the
    one label [PyMuPDF + OCR], whether OCR added text or not; and when
    every page has native text, [ocr_pages] is 0. *)
Theorem pdf_method_label
    (isprintable : N -> bool) (w : world) (file_path : pystr)
    (stderr : list pystr) (r : dict) (stderr' : list pystr) :
  extract_text_from_pdf isprintable w file_path stderr = (Returns r, stderr') ->
  r !! "error" = None ->
  r !! "method" = Some (VStr (py "PyMuPDF + OCR"))
  /\ exists pages,
       pdf_reads w file_path pages
       /\ (forallb native_page pages = true ->
           r !! "ocr_pages" = Some (VInt 0)).
Proof.
  intros Hrun Herr.
  destruct (pdf_success_record _ _ _ _ _ _ Hrun Herr) as (pages & Hreads & _ & ->).
  split; [opaque_text; reflexivity|].
  exists pages. split; [exact Hreads|]. intros Hnative.
  rewrite (count_none ocr_page native_page pages Hnative native_page_not_ocr).
  opaque_text. reflexivity.
Qed.

Lemma pdf_method_label_witness :
  let w := sample_world [page_with_text (py "typed"); page_with_text (py "too")]
             [] [] in
  exists r,
    extract_text_from_pdf isprintable_latin1 w (py "typed.pdf") [] = (Returns r, [])
    /\ r !! "method" = Some (VStr (py "PyMuPDF + OCR"))
    /\ r !! "ocr_pages" = Some (VInt 0).
Proof.
  intros w.
  destruct (extract_text_from_pdf isprintable_latin1 w (py "typed.pdf") [])
    as [[r|e] stderr'] eqn:Hrun; vm_compute in Hrun; [|discriminate Hrun].
  injection Hrun as Hr Hs. subst stderr'.
  exists r. split; [reflexivity|].
  destruct (pdf_method_label isprintable_latin1 w (py "typed.pdf") [] r [])
    as (Hmethod & pages & (doc & Hopen & Hpages & _) & Hzero).
  - rewrite <- Hr. vm_compute. reflexivity.
  - rewrite <- Hr. reflexivity.
  - split; [exact Hmethod|]. apply Hzero.
    injection Hopen as <-. simpl in Hpages.
    destruct pages as [|p1 [|p2 [|p3 pages]]]; try discriminate Hpages.
    injection Hpages as <- <-. reflexivity.
Defined.

(** C5, as the spec has it, fails: no reading of the label tells an
    all-native PDF from one where OCR added text, since both carry the
    same label. *)
Lemma method_label_does_not_reflect_ocr :
  ~ exists no_ocr_label, method_reflects_ocr isprintable_latin1 no_ocr_label.
Proof.
  intros [no_ocr_label H].
  pose (native := [page_with_text (py "typed")]).
  pose (scanned := [page_scanned (Returns (py "seen"))]).
  destruct (H (sample_world native [] []) (py "a.pdf") native [] _ []
              (sample_world_pdf_reads native [] [] _
                 ltac:(repeat constructor; eexists; reflexivity))
              ltac:(vm_compute; reflexivity))
    as (l1 & Hl1 & Hno & _).
  destruct (H (sample_world scanned [] []) (py "a.pdf") scanned [] _ []
              (sample_world_pdf_reads scanned [] [] _
                 ltac:(repeat constructor; eexists; reflexivity))
              ltac:(vm_compute; reflexivity))
    as (l2 & Hl2 & _ & Hocr).
  vm_compute in Hl1, Hl2. injection Hl1 as <-. injection Hl2 as <-.
  specialize (Hno eq_refl). specialize (Hocr eq_refl). congruence.
Qed.

(** C6, as the code has it. In every successful PDF extraction
    [pages_processed] is the number of pages of the document, [ocr_pages]
    is the number of pages without native text on which OCR returned text
    with content (more than whitespace), and
    [0 <= ocr_pages <= pages_processed]. *)
Theorem pdf_counters
    (isprintable : N -> bool) (w : world) (file_path : pystr)
    (stderr : list pystr) (r : dict) (stderr' : list pystr) :
  extract_text_from_pdf isprintable w file_path stderr = (Returns r, stderr') ->
  r !! "error" = None ->
  exists pages pages_processed ocr_pages,
    pdf_reads w file_path pages
    /\ r !! "pages_processed" = Some (VInt pages_processed)
    /\ r !! "ocr_pages" = Some (VInt ocr_pages)
    /\ pages_processed = len pages
    /\ ocr_pages = count ocr_page pages
    /\ (0 <= ocr_pages <= pages_processed)%Z.
Proof.
  intros Hrun Herr.
  destruct (pdf_success_record _ _ _ _ _ _ Hrun Herr) as (pages & Hreads & _ & ->).
  exists pages, (len pages), (count ocr_page pages).
  split; [exact Hreads|].
  split; [opaque_text; reflexivity|].
  split; [opaque_text; reflexivity|].
  split; [reflexivity|]. split; [reflexivity|]. apply count_bounds.
Qed.

Lemma pdf_counters_witness :
  let pages := [page_with_text (py "typed");
                page_scanned (Returns (py "seen"));
                page_scanned (Returns [SPACE; NL]);
                page_scanned (Raises (Exception (py "tesseract is not installed")))] in
  let w := sample_world pages [] [] in
  exists r,
    extract_text_from_pdf isprintable_latin1 w (py "mixed.pdf") []
    = (Returns r, [py "OCR failed for page 3: tesseract is not installed"])
    /\ r !! "pages_processed" = Some (VInt 4)
    /\ r !! "ocr_pages" = Some (VInt 1).
Proof.
  intros pages w.
  pose (r := ({[ "text" := VStr (py "typed" ++ [NL] ++ py "seen");
                 "pages_processed" := VInt 4;
                 "ocr_pages" := VInt 1;
                 "length" := VInt 10;
                 "method" := VStr (py "PyMuPDF + OCR") ]} : dict)).
  assert (Hrun : extract_text_from_pdf isprintable_latin1 w (py "mixed.pdf") []
                 = (Returns r, [py "OCR failed for page 3: tesseract is not installed"]))
    by (vm_compute; reflexivity).
  exists r. split; [exact Hrun|].
  destruct (pdf_counters isprintable_latin1 w (py "mixed.pdf") [] r _ Hrun eq_refl)
    as (pages' & pp & op & _ & Hpp & Hop & _).
  split; reflexivity.
Defined.

(** C6, as the spec has it, fails: a page on which OCR returns a string
    of whitespace only has returned a non-empty string, and it is not
    counted in [ocr_pages]. *)
Lemma ocr_pages_skips_whitespace_ocr :
  ~ ocr_pages_counts_nonempty isprintable_latin1.
Proof.
  intros H.
  pose (pages := [page_scanned (Returns [SPACE])]).
  specialize (H (sample_world pages [] []) (py "scan.pdf") pages [] _ []
                (sample_world_pdf_reads pages [] [] _
                   ltac:(repeat constructor; eexists; reflexivity))
                ltac:(vm_compute; reflexivity)).
  vm_compute in H. discriminate H.
Qed.




(** ** More on the normaliser *)

Section NormaliserMore.
Variable isprintable : N -> bool.

Lemma filter_keep_idem (s : pystr) :
  List.filter (keep isprintable) (List.filter (keep isprintable) s)
  = List.filter (keep isprintable) s.
Proof. apply filter_keep_fix, filter_keep_Forall. Qed.

Lemma clean_all_dropped (s : pystr) :
  List.filter (keep isprintable) s = [] ->
  clean_extracted_text isprintable s = [].
Proof.
  intros H. destruct s as [|c s]; [reflexivity|].
  rewrite clean_nonempty by discriminate. rewrite H. reflexivity.
Qed.

(** X1. The characters the first step drops have no effect on the
    result: normalising a text and normalising what its filter keeps
    give the same string; so a dropped character (a control character,
    say) may be added anywhere without changing the result. *)
Theorem clean_ignores_dropped_characters (s x y : pystr) (c : N) :
  clean_extracted_text isprintable s
  = clean_extracted_text isprintable (List.filter (keep isprintable) s)
  /\ (keep isprintable c = false ->
      clean_extracted_text isprintable (x ++ c :: y)
      = clean_extracted_text isprintable (x ++ y)).
Proof.
  assert (H : forall t, clean_extracted_text isprintable t
    = clean_extracted_text isprintable (List.filter (keep isprintable) t)).
  { intros t. destruct (List.filter (keep isprintable) t) as [|d t'] eqn:E.
    - apply clean_all_dropped, E.
    - destruct t as [|d0 t0]; [discriminate E|].
      rewrite <- E, !clean_nonempty, filter_keep_idem;
        [reflexivity | rewrite E; discriminate | discriminate]. }
  split; [apply H|]. intros Hc.
  rewrite (H (x ++ c :: y)), (H (x ++ y)), !List.filter_app. simpl.
  rewrite Hc. reflexivity.
Qed.

Lemma clean_kept (s : pystr) :
  Forall (fun c => keep isprintable c = true) (clean_extracted_text isprintable s).
Proof.
  destruct (clean_normal_lines isprintable s) as (lines & -> & _ & Hc & _).
  apply join_Forall.
  - repeat constructor. apply keep_NL.
  - eapply Forall_impl; [exact Hc|]. intros l Hl.
    eapply Forall_impl; [exact Hl|]. intros c [Hk _]. exact Hk.
Qed.

Lemma clean_stripped (s : pystr) :
  strip (clean_extracted_text isprintable s) = clean_extracted_text isprintable s.
Proof.
  destruct (clean_normal_lines isprintable s) as (lines & -> & Hs & _ & _ & Ht).
  rewrite strip_join by exact Hs. rewrite strip_by_fix by exact Ht. reflexivity.
Qed.

Lemma clean_lines_stripped (s : pystr) :
  Forall (fun line => strip line = line)
         (split NL (clean_extracted_text isprintable s)).
Proof.
  destruct (clean_normal_lines isprintable s) as (lines & -> & Hs & Hc & _ & _).
  destruct lines as [|l lines]; [repeat constructor|].
  rewrite split_join; [| discriminate |].
  - eapply Forall_impl; [exact Hs|]. intros l' Hl. apply strip_by_fix, Hl.
  - eapply Forall_impl; [exact Hc|]. intros l' Hl Hin. unfold line_chars in Hl.
    rewrite Forall_forall in Hl. destruct (Hl NL Hin) as [_ Hn]. congruence.
Qed.
End NormaliserMore.

Lemma clean_ignores_dropped_characters_witness :
  clean_extracted_text isprintable_latin1 (py "ab" ++ 7 :: py "cd")
  = clean_extracted_text isprintable_latin1 (py "ab" ++ py "cd").
Proof.
  apply (clean_ignores_dropped_characters isprintable_latin1 [] (py "ab") (py "cd") 7).
  reflexivity.
Defined.

(** X2. The shape of every normalised text: each of its characters is
    printable or one of newline, tab and space; it neither starts nor
    ends with whitespace; and no line of it does. *)
Theorem clean_output_shape (isprintable : N -> bool) (s : pystr) :
  let out := clean_extracted_text isprintable s in
  Forall (fun c => isprintable c = true \/ c ∈ [NL; TAB; SPACE]) out
  /\ strip out = out
  /\ Forall (fun line => strip line = line) (split NL out).
Proof.
  intros out. split; [|split].
  - eapply Forall_impl; [apply clean_kept|]. intros c Hk. unfold keep in Hk.
    apply orb_true_iff in Hk as [Hk|Hk]; [left; exact Hk|].
    right. apply bool_decide_eq_true in Hk. exact Hk.
  - apply clean_stripped.
  - apply clean_lines_stripped.
Qed.

(** ** Sizes *)

Lemma lines_size_cons (l : pystr) (lines : list pystr) :
  lines_size (l :: lines) = S (length l + lines_size lines).
Proof. reflexivity. Qed.

Lemma length_join_lines (lines : list pystr) :
  length (join [NL] lines) = pred (lines_size lines).
Proof.
  induction lines as [|l lines IH]; [reflexivity|].
  destruct lines as [|l' lines].
  - simpl. lia.
  - rewrite join_cons, !length_app, IH. simpl. lia.
Qed.

Lemma lines_size_split (s : pystr) : lines_size (split NL s) = S (length s).
Proof.
  induction s as [|c s IH]; [reflexivity|]. simpl.
  destruct (c =? NL); simpl; [rewrite IH; reflexivity|].
  destruct (split NL s) as [|l ls]; simpl in *; lia.
Qed.

Lemma length_drop_while {A} (P : A -> bool) l :
  (length (drop_while P l) <= length l)%nat.
Proof.
  destruct (drop_while_suffix P l) as [pre E].
  rewrite E at 2. rewrite length_app. lia.
Qed.

Lemma length_strip_by {A} (P : A -> bool) l :
  (length (strip_by P l) <= length l)%nat.
Proof.
  unfold strip_by. rewrite length_reverse.
  etransitivity; [apply length_drop_while|]. rewrite length_reverse.
  apply length_drop_while.
Qed.

Lemma lines_size_strip (lines : list pystr) :
  (lines_size (strip <$> lines) <= lines_size lines)%nat.
Proof.
  induction lines as [|l lines IH]; [reflexivity|].
  rewrite fmap_cons, !lines_size_cons.
  pose proof (length_strip_by isspace l). unfold strip at 1. lia.
Qed.

Lemma lines_size_collapse prev_blank (lines : list pystr) :
  (lines_size (collapse prev_blank lines) <= lines_size lines)%nat.
Proof.
  revert prev_blank. induction lines as [|l lines IH]; intros pb; [reflexivity|].
  simpl collapse. rewrite lines_size_cons.
  destruct (truthy l) eqn:E; [|destruct pb; simpl negb; cbv iota].
  - rewrite lines_size_cons. specialize (IH false). lia.
  - specialize (IH true). lia.
  - rewrite lines_size_cons. specialize (IH true). simpl length. lia.
Qed.

(** X3. Normalising never lengthens a text: the result has at most as
    many characters as the input. *)
Theorem clean_length_le (isprintable : N -> bool) (s : pystr) :
  (len (clean_extracted_text isprintable s) <= len s)%Z.
Proof.
  unfold len. apply inj_le.
  destruct s as [|c s]; [reflexivity|].
  rewrite clean_nonempty by discriminate.
  etransitivity; [apply length_strip_by|].
  rewrite length_join_lines.
  pose proof (lines_size_collapse false
    (strip <$> split NL (List.filter (keep isprintable) (c :: s)))) as H1.
  pose proof (lines_size_strip
    (split NL (List.filter (keep isprintable) (c :: s)))) as H2.
  rewrite lines_size_split in H2.
  pose proof (List.filter_length_le (keep isprintable) (c :: s)) as H3.
  lia.
Qed.

(** ** Content *)

Lemma has_content_strip (s : pystr) : has_content (strip s) = has_content s.
Proof.
  unfold has_content, strip, strip_by.
  rewrite existsb_reverse, existsb_drop_while, existsb_reverse.
  apply existsb_drop_while.
Qed.

Lemma has_content_join_lines (lines : list pystr) :
  has_content (join [NL] lines) = existsb has_content lines.
Proof.
  induction lines as [|l lines IH]; [reflexivity|].
  destruct lines as [|l' lines].
  - simpl. rewrite orb_false_r. reflexivity.
  - rewrite join_cons. unfold has_content at 1.
    rewrite !existsb_app. fold (has_content l).
    fold (has_content (join [NL] (l' :: lines))). rewrite IH. reflexivity.
Qed.

Lemma has_content_split (s : pystr) :
  existsb has_content (split NL s) = has_content s.
Proof.
  induction s as [|c s IH]; [reflexivity|]. simpl.
  destruct (N.eqb_spec c NL) as [->|Hne]; [exact IH|].
  destruct (split NL s) as [|l ls]; simpl in *;
    rewrite <- IH; destruct (negb (isspace c)); reflexivity.
Qed.

Lemma has_content_strip_lines (lines : list pystr) :
  existsb has_content (strip <$> lines) = existsb has_content lines.
Proof.
  induction lines as [|l lines IH]; [reflexivity|].
  rewrite fmap_cons. simpl. rewrite has_content_strip, IH. reflexivity.
Qed.

Lemma has_content_collapse prev_blank (lines : list pystr) :
  existsb has_content (collapse prev_blank lines) = existsb has_content lines.
Proof.
  revert prev_blank. induction lines as [|l lines IH]; intros pb; [reflexivity|].
  simpl. destruct l as [|c l]; simpl.
  - destruct pb; simpl; apply IH.
  - rewrite IH. reflexivity.
Qed.

Lemma has_content_filter isprintable (s : pystr) :
  has_content (List.filter (keep isprintable) s)
  = existsb (kept_content isprintable) s.
Proof.
  induction s as [|c s IH]; [reflexivity|]. simpl.
  unfold kept_content at 1. destruct (keep isprintable c); simpl.
  - rewrite <- IH. reflexivity.
  - exact IH.
Qed.

Lemma has_content_clean isprintable (s : pystr) :
  has_content (clean_extracted_text isprintable s)
  = existsb (kept_content isprintable) s.
Proof.
  destruct s as [|c s]; [reflexivity|].
  rewrite clean_nonempty by discriminate.
  rewrite has_content_strip, has_content_join_lines, has_content_collapse,
    has_content_strip_lines, has_content_split.
  apply has_content_filter.
Qed.

Lemma clean_empty_no_content isprintable (s : pystr) :
  clean_extracted_text isprintable s = []
  <-> has_content (clean_extracted_text isprintable s) = false.
Proof.
  split; [intros ->; reflexivity|]. intros H.
  rewrite <- truthy_strip, clean_stripped in H.
  destruct (clean_extracted_text isprintable s); [reflexivity | discriminate H].
Qed.

(** X4. The normalised text is empty exactly when no character of the
    input is both kept by the first step and not whitespace: a text of
    whitespace and dropped characters only is normalised to the empty
    string, and any other text to a non-empty one. *)
Theorem clean_empty_iff (isprintable : N -> bool) (s : pystr) :
  clean_extracted_text isprintable s = []
  <-> existsb (kept_content isprintable) s = false.
Proof.
  rewrite clean_empty_no_content, has_content_clean. reflexivity.
Qed.

(** ** More on the PDF extractor *)



Lemma page_kind (p : page) :
  ((if native_page p then 1 else 0) + (if ocr_page p then 1 else 0)
   + (if ocr_failed_page p then 1 else 0) = 1)%Z.
Proof.
  unfold ocr_failed_page. destruct (ocr_page p) eqn:Ho.
  - unfold ocr_page in Ho. apply andb_true_iff in Ho as [Hn _].
    apply negb_true_iff in Hn. rewrite Hn. reflexivity.
  - destruct (native_page p); reflexivity.
Qed.

Lemma count_partition (pages : list page) :
  (count native_page pages + count ocr_page pages
   + count ocr_failed_page pages = len pages)%Z.
Proof.
  induction pages as [|p pages IH]; [reflexivity|].
  rewrite !count_cons. pose proof (page_kind p) as Hk.
  unfold len in *. simpl length. lia.
Qed.

Lemma count_all_iff {A} (f : A -> bool) l :
  count f l = len l <-> forallb f l = true.
Proof.
  induction l as [|x l IH]; [split; reflexivity|].
  rewrite count_cons. pose proof (count_bounds f l) as Hb.
  unfold len in *. simpl length. simpl forallb.
  destruct (f x); simpl; [rewrite <- IH; lia|].
  split; [lia | discriminate].
Qed.

(** X6. In every successful PDF extraction the pages counted split three
    ways: [pages_processed] is [ocr_pages] plus the pages with native
    text plus the pages that gave nothing; and [ocr_pages] equals
    [pages_processed] exactly when every page had no native text and
    got text with content from OCR. *)
Theorem pdf_pages_partition
    (isprintable : N -> bool) (w : world) (file_path : pystr)
    (stderr : list pystr) (r : dict) (stderr' : list pystr) :
  extract_text_from_pdf isprintable w file_path stderr = (Returns r, stderr') ->
  r !! "error" = None ->
  exists pages pages_processed ocr_pages,
    pdf_reads w file_path pages
    /\ r !! "pages_processed" = Some (VInt pages_processed)
    /\ r !! "ocr_pages" = Some (VInt ocr_pages)
    /\ (pages_processed
        = ocr_pages + count native_page pages + count ocr_failed_page pages)%Z
    /\ (ocr_pages = pages_processed <-> forallb ocr_page pages = true).
Proof.
  intros Hrun Herr.
  destruct (pdf_success_record _ _ _ _ _ _ Hrun Herr) as (pages & Hreads & _ & ->).
  exists pages, (len pages), (count ocr_page pages).
  split; [exact Hreads|].
  split; [opaque_text; reflexivity|].
  split; [opaque_text; reflexivity|].
  split; [pose proof (count_partition pages); lia | apply count_all_iff].
Qed.

Lemma pdf_pages_partition_witness :
  let pages := [page_scanned (Returns (py "seen"));
                page_scanned (Returns (py "too"))] in
  let w := sample_world pages [] [] in
  exists r,
    extract_text_from_pdf isprintable_latin1 w (py "scan.pdf") [] = (Returns r, [])
    /\ r !! "pages_processed" = Some (VInt 2)
    /\ r !! "ocr_pages" = Some (VInt 2).
Proof.
  intros pages w.
  pose (r := ({[ "text" := VStr (py "seen" ++ [NL] ++ py "too");
                 "pages_processed" := VInt 2;
                 "ocr_pages" := VInt 2;
                 "length" := VInt 8;
                 "method" := VStr (py "PyMuPDF + OCR") ]} : dict)).
  assert (Hrun : extract_text_from_pdf isprintable_latin1 w (py "scan.pdf") []
                 = (Returns r, [])) by (vm_compute; reflexivity).
  exists r. split; [exact Hrun|].
  destruct (pdf_pages_partition isprintable_latin1 w (py "scan.pdf") [] r _
              Hrun eq_refl) as (pages' & pp & op & _ & Hpp & Hop & _).
  split; reflexivity.
Defined.

Lemma ocr_failed_page_text p :
  readable_page p -> ocr_failed_page p = true -> page_text p = [].
Proof.
  intros [text Ht] Hfail. unfold ocr_failed_page in Hfail.
  apply andb_true_iff in Hfail as [Hn Ho]. apply negb_true_iff in Hn, Ho.
  unfold ocr_page in Ho. rewrite Hn in Ho. simpl in Ho.
  unfold page_text. unfold native_page in Hn. rewrite Ht in Hn |- *. rewrite Hn.
  destruct (run_ocr p) as [ocr_text|e]; [rewrite Ho|]; reflexivity.
Qed.

Lemma ocr_failed_not_ocr p : ocr_failed_page p = true -> ocr_page p = false.
Proof.
  unfold ocr_failed_page. intros H. apply andb_true_iff in H as [_ H].
  apply negb_true_iff in H. exact H.
Qed.

(** X7. A PDF that gives no text at all is still a success, not an
    error: when the document reads, every page is without native text and
    without OCR text (an empty document included), and the lines due for
    the pages whose OCR raised go out on [sys.stderr], the record has the
    empty text, [length] 0, [ocr_pages] 0 and counts every page. *)
Theorem pdf_without_text_succeeds
    (isprintable : N -> bool) (w : world) (file_path : pystr)
    (pages : list page) (stderr : list pystr) :
  pdf_reads w file_path pages ->
  forallb ocr_failed_page pages = true ->
  prints_return w stderr (diagnostics_from 0 pages) = true ->
  extract_text_from_pdf isprintable w file_path stderr
  = (Returns {[ "text" := VStr [];
                "pages_processed" := VInt (len pages);
                "ocr_pages" := VInt 0;
                "length" := VInt 0;
                "method" := VStr (py "PyMuPDF + OCR") ]},
     stderr ++ diagnostics_from 0 pages).
Proof.
  intros Hreads Hfail Hprints.
  rewrite (extract_text_from_pdf_reads isprintable w _ _ stderr Hreads Hprints).
  rewrite (count_none ocr_page ocr_failed_page pages Hfail ocr_failed_not_ocr).
  assert (Htext : concat (page_text <$> pages) = []).
  { clear Hprints. destruct Hreads as (_ & _ & _ & Hread & _).
    induction Hread as [|p pages Hp Hrest IH]; [reflexivity|].
    simpl in Hfail. apply andb_true_iff in Hfail as [Hf Hfs].
    rewrite fmap_cons. simpl. rewrite (ocr_failed_page_text p Hp Hf).
    apply IH, Hfs. }
  rewrite Htext. reflexivity.
Qed.

Lemma pdf_without_text_succeeds_witness :
  let pages := [page_scanned (Raises (Exception (py "tesseract is not installed")));
                page_scanned (Returns [SPACE; 12])] in
  extract_text_from_pdf isprintable_latin1 (sample_world pages [] [])
    (py "blank.pdf") []
  = (Returns {[ "text" := VStr [];
                "pages_processed" := VInt 2;
                "ocr_pages" := VInt 0;
                "length" := VInt 0;
                "method" := VStr (py "PyMuPDF + OCR") ]},
     [py "OCR failed for page 0: tesseract is not installed"]).
Proof.
  intros pages.
  apply (pdf_without_text_succeeds isprintable_latin1 (sample_world pages [] [])
           (py "blank.pdf") pages []).
  - apply sample_world_pdf_reads. repeat constructor; eexists; reflexivity.
  - reflexivity.
  - reflexivity.
Defined.

(** ** More on the DOC extractor *)

Lemma filter_none {A} (f : A -> bool) l :
  existsb f l = false -> List.filter f l = [].
Proof.
  induction l as [|x l IH]; [reflexivity|]. simpl.
  destruct (f x); [discriminate | exact IH].
Qed.

Lemma textract_result_error isprintable w file_path msg :
  textract_result isprintable w file_path !! "error" = Some (VStr msg) ->
  exists e, msg = py "Textract extraction failed: " ++ str_exn e.
Proof.
  unfold textract_result.
  destruct (import_textract w) as [[]|e]; [|intros [= <-]; eauto].
  destruct (textract_process w file_path) as [raw|e]; [|intros [= <-]; eauto].
  destruct (decode_utf8 raw) as [raw_text|e]; [|intros [= <-]; eauto].
  generalize (clean_extracted_text isprintable raw_text). intros t H.
  discriminate H.
Qed.

Section DocMore.
Variable isprintable : N -> bool.
Variable lower : pystr -> pystr.
Variable w : world.

Lemma textract_fallback_run file_path stderr :
  try_except
    (call (import_textract w);;
     raw ← call (textract_process w file_path);
     raw_text ← call (decode_utf8 raw);
     let clean_text := clean_extracted_text isprintable raw_text in
     mret ({[ "text" := VStr clean_text;
              "length" := VInt (len clean_text);
              "method" := VStr (py "textract") ]} : dict))
    (fun textract_error =>
       mret ({[ "error" :=
                  VStr (py "Textract extraction failed: "
                        ++ str_exn textract_error) ]} : dict)) stderr
  = (Returns (textract_result isprintable w file_path), stderr).
Proof.
  unfold textract_result. run_monad.
  destruct (import_textract w) as [[]|e]; [|reflexivity].
  destruct (textract_process w file_path) as [raw|e]; [|reflexivity].
  destruct (decode_utf8 raw) as [raw_text|e]; reflexivity.
Qed.

Lemma extract_text_from_doc_fallback file_path stderr stderr1 :
  (if bool_decide (lower (splitext file_path).2 = py ".docx")
   then try_python_docx isprintable w file_path
   else mret None) stderr = (Returns None, stderr1) ->
  extract_text_from_doc isprintable lower w file_path stderr
  = (Returns (textract_result isprintable w file_path), stderr1).
Proof.
  intros H. unfold extract_text_from_doc. unfold try_except at 1.
  unfold mbind at 1. unfold M_bind at 1. rewrite H. cbv beta iota.
  match goal with
  | |- (let (_, _) := ?m in _) = _ =>
      assert (E : m = (Returns (textract_result isprintable w file_path), stderr1))
        by exact (textract_fallback_run file_path stderr1);
      rewrite E
  end.
  reflexivity.
Qed.

Lemma try_python_docx_gives_up file_path stderr printed :
  docx_gives_up w file_path = Some printed ->
  prints_return w stderr printed = true ->
  try_python_docx isprintable w file_path stderr
  = (Returns None, stderr ++ printed).
Proof.
  unfold docx_gives_up, try_python_docx, try_except.
  unfold mbind at 1. unfold M_bind at 1. unfold call at 1.
  destruct (docx_Document w file_path) as [doc|e].
  - destruct (existsb _ (doc_paragraphs doc)) eqn:E; [discriminate|].
    intros [= <-] _. rewrite kept_paragraphs_eq. unfold kept_paragraphs.
    rewrite (filter_none _ _ E), app_nil_r. reflexivity.
  - intros [= <-]. step_monad. cbn [prints_return].
    destruct (stderr_print w stderr _); [reflexivity | discriminate].
Qed.

Lemma docx_print_raises file_path stderr printed :
  docx_gives_up w file_path = Some printed ->
  prints_return w stderr printed = false ->
  exists e, docx_print_fails w file_path stderr e.
Proof.
  unfold docx_gives_up, docx_print_fails.
  destruct (docx_Document w file_path) as [doc|docx_error].
  - destruct (existsb _ (doc_paragraphs doc)); [discriminate|].
    intros [= <-]. discriminate.
  - intros [= <-]. cbn [prints_return].
    destruct (stderr_print w stderr _) as [[]|e] eqn:E; [discriminate|].
    intros _. exists e, docx_error. split; [reflexivity | exact E].
Qed.

Lemma extract_text_from_doc_print_fails file_path stderr e :
  lower (splitext file_path).2 = py ".docx" ->
  docx_print_fails w file_path stderr e ->
  extract_text_from_doc isprintable lower w file_path stderr
  = (Returns {[ "error" :=
                  VStr (py "Document extraction failed: " ++ str_exn e) ]},
     stderr).
Proof.
  intros Hext (docx_error & Hdoc & Hprint).
  unfold extract_text_from_doc. unfold try_except at 1.
  unfold mbind at 1. unfold M_bind at 1.
  rewrite (bool_decide_eq_true_2 _ Hext).
  unfold try_python_docx, try_except.
  unfold mbind at 1. unfold M_bind at 1. unfold call at 1. rewrite Hdoc.
  step_monad. rewrite Hprint. reflexivity.
Qed.

Lemma docx_answers file_path :
  docx_gives_up w file_path = None ->
  exists doc,
    docx_Document w file_path = Returns doc
    /\ exists p, p ∈ doc_paragraphs doc /\ has_content (p_text p) = true.
Proof.
  unfold docx_gives_up.
  destruct (docx_Document w file_path) as [doc|e]; [|discriminate].
  destruct (existsb _ (doc_paragraphs doc)) eqn:E; [|discriminate].
  intros _. exists doc. split; [reflexivity|].
  apply existsb_exists in E as (p & Hin & Hp).
  exists p. split; [apply list_elem_of_In, Hin | exact Hp].
Qed.

Lemma extract_text_from_doc_cases file_path stderr :
  exists r stderr',
    extract_text_from_doc isprintable lower w file_path stderr
    = (Returns r, stderr')
    /\ (r = textract_result isprintable w file_path
        \/ (r !! "method" = Some (VStr (py "python-docx"))
            /\ r !! "error" = None)
        \/ exists e,
             lower (splitext file_path).2 = py ".docx"
             /\ docx_print_fails w file_path stderr e
             /\ r = {[ "error" :=
                         VStr (py "Document extraction failed: "
                               ++ str_exn e) ]}).
Proof.
  destruct (bool_decide (lower (splitext file_path).2 = py ".docx")) eqn:Hext.
  - destruct (docx_gives_up w file_path) as [printed|] eqn:Hup.
    + destruct (prints_return w stderr printed) eqn:Hprints.
      * exists (textract_result isprintable w file_path), (stderr ++ printed).
        split; [|left; reflexivity].
        apply extract_text_from_doc_fallback. rewrite Hext.
        apply try_python_docx_gives_up; assumption.
      * destruct (docx_print_raises file_path stderr printed Hup Hprints)
          as [e He].
        apply bool_decide_eq_true in Hext.
        do 2 eexists. split;
          [apply (extract_text_from_doc_print_fails file_path stderr e Hext He)|].
        right. right. exists e. auto.
    + destruct (docx_answers file_path Hup) as (doc & Hdoc & Hcontent).
      do 2 eexists. split.
      * unfold extract_text_from_doc. unfold try_except at 1.
        unfold mbind at 1. unfold M_bind at 1. rewrite Hext.
        rewrite (try_python_docx_content isprintable w file_path doc stderr
                   Hdoc Hcontent).
        reflexivity.
      * right. left. opaque_text. split; reflexivity.
  - exists (textract_result isprintable w file_path), stderr.
    split; [|left; reflexivity].
    apply extract_text_from_doc_fallback. rewrite Hext. reflexivity.
Qed.
End DocMore.

(** X8. A file whose lower-cased extension is not [.docx] (a legacy
    [.doc], say) is read by textract alone: python-docx is not consulted,
    nothing is printed, and the record is the textract one: its
    normalised text, or the error of the first of the import, the
    processing and the decoding that raises. *)
Theorem legacy_doc_uses_textract_only
    (isprintable : N -> bool) (lower : pystr -> pystr) (w : world)
    (file_path : pystr) (stderr : list pystr) :
  lower (splitext file_path).2 <> py ".docx" ->
  extract_text_from_doc isprintable lower w file_path stderr
  = (Returns (textract_result isprintable w file_path), stderr).
Proof.
  intros Hext. apply extract_text_from_doc_fallback.
  rewrite (bool_decide_eq_false_2 _ Hext). reflexivity.
Qed.

Lemma legacy_doc_uses_textract_only_witness :
  extract_text_from_doc isprintable_latin1 lower_ascii
    (sample_world [] [py "one"] []) (py "old.DOC") []
  = (Returns {[ "error" :=
                  VStr (py "Textract extraction failed: No module named 'textract'") ]},
     []).
Proof.
  apply (legacy_doc_uses_textract_only isprintable_latin1 lower_ascii
           (sample_world [] [py "one"] []) (py "old.DOC") []).
  vm_compute. discriminate.
Defined.

(** X9. When python-docx cannot answer for a [.docx] file, textract
    decides: if [docx.Document] raises, one line [python-docx failed: ...]
    is printed with [file=sys.stderr], and provided that write returns;
    if no paragraph has content, nothing is printed; in both cases the
    record is the textract one. *)
Theorem docx_falls_back_to_textract
    (isprintable : N -> bool) (lower : pystr -> pystr) (w : world)
    (file_path : pystr) (stderr printed : list pystr) :
  lower (splitext file_path).2 = py ".docx" ->
  docx_gives_up w file_path = Some printed ->
  prints_return w stderr printed = true ->
  extract_text_from_doc isprintable lower w file_path stderr
  = (Returns (textract_result isprintable w file_path), stderr ++ printed).
Proof.
  intros Hext Hup Hprints. apply extract_text_from_doc_fallback.
  rewrite (bool_decide_eq_true_2 _ Hext).
  apply try_python_docx_gives_up; assumption.
Qed.

Lemma docx_falls_back_to_textract_witness :
  let w := {| fitz_open := fun _ => Raises (Exception (py "not a PDF"));
              docx_Document := fun _ =>
                Raises (Exception (py "File is not a zip file"));
              import_textract := Returns ();
              textract_process := fun _ =>
                Returns {| decode_utf8 := Returns (py "      from textract ") |};
              open_utf8 := fun _ => Raises (Exception (py "no"));
              stderr_print := fun _ _ => Returns () |} in
  extract_text_from_doc isprintable_latin1 lower_ascii w (py "odd.docx") []
  = (Returns {[ "text" := VStr (py "from textract");
                "length" := VInt 13;
                "method" := VStr (py "textract") ]},
     [py "python-docx failed: File is not a zip file"]).
Proof.
  intros w.
  apply (docx_falls_back_to_textract isprintable_latin1 lower_ascii w
           (py "odd.docx") [] [py "python-docx failed: File is not a zip file"]);
    reflexivity.
Defined.

(** X10. An error record of [extract_text_from_doc] has one of two
    origins. It is the textract one, [Textract extraction failed: ] and
    the message of the exception; a failure of python-docx alone is never
    an error of the call. Or, only when [docx.Document] has raised on a
    [.docx] file and printing the line about it raises too, it is
    [Document extraction failed: ] and the message of the failed write,
    with textract not tried. *)
Theorem doc_errors_come_from_textract
    (isprintable : N -> bool) (lower : pystr -> pystr) (w : world)
    (file_path : pystr) (stderr : list pystr) (r : dict)
    (stderr' : list pystr) (msg : pystr) :
  extract_text_from_doc isprintable lower w file_path stderr
  = (Returns r, stderr') ->
  r !! "error" = Some (VStr msg) ->
  (r = textract_result isprintable w file_path
   /\ exists e, msg = py "Textract extraction failed: " ++ str_exn e)
  \/ (exists e,
        lower (splitext file_path).2 = py ".docx"
        /\ docx_print_fails w file_path stderr e
        /\ msg = py "Document extraction failed: " ++ str_exn e).
Proof.
  intros Hrun Hmsg.
  destruct (extract_text_from_doc_cases isprintable lower w file_path stderr)
    as (r1 & stderr1 & Hrun1 & Hcases).
  rewrite Hrun in Hrun1. injection Hrun1 as <- <-.
  destruct Hcases as [->|[[_ Hnone]|(e & Hext & Hfail & ->)]]; [|congruence|].
  - left. split; [reflexivity|]. eapply textract_result_error, Hmsg.
  - right. exists e. split; [exact Hext|]. split; [exact Hfail|].
    injection Hmsg as <-. reflexivity.
Qed.

Lemma doc_errors_come_from_textract_witness :
  let w := with_broken_stderr
             {| fitz_open := fun _ => Raises (Exception (py "not a PDF"));
                docx_Document := fun _ =>
                  Raises (Exception (py "File is not a zip file"));
                import_textract := Returns ();
                textract_process := fun _ => Raises (Exception (py "no"));
                open_utf8 := fun _ => Raises (Exception (py "no"));
                stderr_print := fun _ _ => Returns () |}
             (Exception (py "[Errno 32] Broken pipe")) in
  extract_text_from_doc isprintable_latin1 lower_ascii w (py "odd.docx") []
  = (Returns {[ "error" :=
        VStr (py "Document extraction failed: [Errno 32] Broken pipe") ]}, [])
  /\ exists e,
       docx_print_fails w (py "odd.docx") [] e
       /\ py "Document extraction failed: [Errno 32] Broken pipe"
          = py "Document extraction failed: " ++ str_exn e.
Proof.
  intros w.
  assert (Hrun : extract_text_from_doc isprintable_latin1 lower_ascii w
                   (py "odd.docx") []
                 = (Returns {[ "error" :=
                      VStr (py "Document extraction failed: [Errno 32] Broken pipe") ]},
                    [])) by reflexivity.
  split; [exact Hrun|].
  destruct (doc_errors_come_from_textract isprintable_latin1 lower_ascii w
              (py "odd.docx") [] _ [] _ Hrun eq_refl)
    as [[Hr _]|(e & _ & Hfail & Hmsg)].
  - vm_compute in Hr. discriminate Hr.
  - exists e. split; [exact Hfail | exact Hmsg].
Defined.

(** ** More on the dispatcher *)

(** X11. [extract_text] adds nothing to the extractor it selects: on a
    [.pdf] path it returns what [extract_text_from_pdf] returns and prints
    what it prints, and on a [.doc] or [.docx] path the same with
    [extract_text_from_doc]; its own handler never changes their
    answer. *)
Theorem extract_text_dispatch
    (isprintable : N -> bool) (lower : pystr -> pystr) (w : world)
    (file_path : pystr) (stderr : list pystr) :
  let ext := lower (splitext file_path).2 in
  (ext = py ".pdf" ->
   extract_text isprintable lower w file_path stderr
   = extract_text_from_pdf isprintable w file_path stderr)
  /\ (ext ∈ [py ".doc"; py ".docx"] ->
      extract_text isprintable lower w file_path stderr
      = extract_text_from_doc isprintable lower w file_path stderr).
Proof.
  intros ext. split; intros Hext; unfold extract_text, try_except; fold ext.
  - rewrite (bool_decide_eq_true_2 _ Hext).
    destruct (extract_text_from_pdf_form isprintable w file_path stderr)
      as (r & stderr' & -> & _). reflexivity.
  - rewrite (bool_decide_eq_false_2 (ext = py ".pdf")).
    2:{ intros E. rewrite E in Hext.
        repeat (apply elem_of_cons in Hext as [Hext|Hext]; [discriminate Hext|]).
        apply elem_of_nil in Hext. exact Hext. }
    rewrite (bool_decide_eq_true_2 _ Hext).
    destruct (extract_text_from_doc_form isprintable lower w file_path stderr)
      as (r & stderr' & -> & _). reflexivity.
Qed.

Lemma extract_text_dispatch_witness :
  let w := sample_world [page_with_text (py "typed")] [py "one"] [] in
  extract_text isprintable_latin1 lower_ascii w (py "Report.PDF") []
  = extract_text_from_pdf isprintable_latin1 w (py "Report.PDF") []
  /\ extract_text isprintable_latin1 lower_ascii w (py "notes.docx") []
     = extract_text_from_doc isprintable_latin1 lower_ascii w (py "notes.docx") [].
Proof.
  intros w. split.
  - apply (extract_text_dispatch isprintable_latin1 lower_ascii w
             (py "Report.PDF") []). reflexivity.
  - apply (extract_text_dispatch isprintable_latin1 lower_ascii w
             (py "notes.docx") []).
    apply elem_of_cons. right. apply elem_of_cons. left. reflexivity.
Defined.

Lemma extract_text_txt
    (isprintable : N -> bool) (lower : pystr -> pystr) (w : world)
    (file_path : pystr) (stderr : list pystr) :
  lower (splitext file_path).2 = py ".txt" ->
  extract_text isprintable lower w file_path stderr
  = (Returns (read_text_result isprintable w file_path), stderr).
Proof.
  intros Hext. unfold extract_text, try_except, read_text_result. rewrite Hext.
  rewrite (bool_decide_eq_false_2 (py ".txt" = py ".pdf")) by discriminate.
  rewrite (bool_decide_eq_false_2 (py ".txt" ∈ [py ".doc"; py ".docx"])).
  2:{ intros H.
      repeat (apply elem_of_cons in H as [H|H]; [discriminate H|]).
      apply elem_of_nil in H. exact H. }
  rewrite bool_decide_eq_true_2 by reflexivity. run_monad.
  destruct (open_utf8 w file_path) as [f|e]; [|reflexivity].
  destruct (read f) as [text|e]; reflexivity.
Qed.

(** X12. On a [.txt] path [extract_text] prints nothing and its record
    is that of the direct read: when the file opens and reads as [text],
    the normalised text with its length and the method
    [direct text read]; when opening or reading (and decoding) raises,
    the error record [Failed to extract text: ] followed by the message
    of the exception. *)
Theorem plain_text_read
    (isprintable : N -> bool) (lower : pystr -> pystr) (w : world)
    (file_path : pystr) (stderr : list pystr) :
  lower (splitext file_path).2 = py ".txt" ->
  (forall f text,
      open_utf8 w file_path = Returns f -> read f = Returns text ->
      extract_text isprintable lower w file_path stderr
      = (Returns {[ "text" := VStr (clean_extracted_text isprintable text);
                    "length" :=
                      VInt (len (clean_extracted_text isprintable text));
                    "method" := VStr (py "direct text read") ]}, stderr))
  /\ (forall e,
      open_utf8 w file_path = Raises e
      \/ (exists f, open_utf8 w file_path = Returns f /\ read f = Raises e) ->
      extract_text isprintable lower w file_path stderr
      = (Returns {[ "error" :=
                      VStr (py "Failed to extract text: " ++ str_exn e) ]},
         stderr)).
Proof.
  intros Hext.
  rewrite (extract_text_txt isprintable lower w file_path stderr Hext).
  unfold read_text_result. split.
  - intros f text Hopen Hread. rewrite Hopen, Hread. reflexivity.
  - intros e [Hopen|(f & Hopen & Hread)].
    + rewrite Hopen. reflexivity.
    + rewrite Hopen, Hread. reflexivity.
Qed.

Lemma plain_text_read_witness :
  let w := {| fitz_open := fun _ => Raises (Exception (py "no"));
              docx_Document := fun _ => Raises (Exception (py "no"));
              import_textract := Raises (Exception (py "no"));
              textract_process := fun _ => Raises (Exception (py "no"));
              open_utf8 := fun _ =>
                Returns {| read := Raises (Exception
                  (py "'utf-8' codec can't decode byte 0xff")) |};
              stderr_print := fun _ _ => Returns () |} in
  extract_text isprintable_latin1 lower_ascii w (py "bad.txt") [py "earlier"]
  = (Returns {[ "error" :=
        VStr (py "Failed to extract text: 'utf-8' codec can't decode byte 0xff") ]},
     [py "earlier"]).
Proof.
  intros w.
  destruct (plain_text_read isprintable_latin1 lower_ascii w (py "bad.txt")
              [py "earlier"]) as [_ Hfail].
  - reflexivity.
  - apply (Hfail (Exception (py "'utf-8' codec can't decode byte 0xff"))).
    right. eexists. split; reflexivity.
Defined.

(** X13. The text of every success record of [extract_text] is in normal
    form: normalising it again returns it, it neither starts nor ends with
    whitespace, it has no two consecutive empty lines, and [length], which
    counts its characters, is not negative. *)
Theorem success_text_is_normal
    (isprintable : N -> bool) (lower : pystr -> pystr) (w : world)
    (file_path : pystr) (stderr : list pystr) (r : dict)
    (stderr' : list pystr) :
  extract_text isprintable lower w file_path stderr = (Returns r, stderr') ->
  r !! "error" = None ->
  exists text n,
    r !! "text" = Some (VStr text)
    /\ r !! "length" = Some (VInt n)
    /\ n = len text /\ (0 <= n)%Z
    /\ clean_extracted_text isprintable text = text
    /\ strip text = text
    /\ no_blank_run (split NL text).
Proof.
  intros Hrun Herr.
  destruct (extract_text_form isprintable lower w file_path stderr)
    as (r1 & stderr1 & Hrun1 & Hform).
  rewrite Hrun in Hrun1. injection Hrun1 as <- <-.
  destruct (result_form_length isprintable r Hform Herr) as (raw & Ht & Hl).
  simpl in Ht, Hl.
  exists (clean_extracted_text isprintable raw),
         (len (clean_extracted_text isprintable raw)).
  split; [exact Ht|]. split; [exact Hl|]. split; [reflexivity|].
  split; [unfold len; lia|].
  split; [destruct (clean_normal_lines isprintable raw) as (lines & -> & Hn);
          apply clean_join_normal, Hn|].
  split; [apply clean_stripped | apply clean_no_blank_run].
Qed.

Lemma success_text_is_normal_witness :
  let w := sample_world [] [] ([SPACE] ++ py "A" ++ [NL; NL; NL] ++ py "B" ++ [NL]) in
  exists r text,
    extract_text isprintable_latin1 lower_ascii w (py "notes.txt") []
    = (Returns r, [])
    /\ r !! "text" = Some (VStr text)
    /\ clean_extracted_text isprintable_latin1 text = text.
Proof.
  intros w.
  destruct (extract_text isprintable_latin1 lower_ascii w (py "notes.txt") [])
    as [[r|e] stderr'] eqn:Hrun; vm_compute in Hrun; [|discriminate Hrun].
  injection Hrun as Hr Hs. subst stderr'.
  destruct (success_text_is_normal isprintable_latin1 lower_ascii w
              (py "notes.txt") [] r [])
    as (text & n & Ht & _ & _ & _ & Hfix & _).
  - rewrite <- Hr. vm_compute. reflexivity.
  - rewrite <- Hr. reflexivity.
  - exists r, text. split; [reflexivity|]. split; [exact Ht | exact Hfix].
Defined.

(** ** The command line *)

Section MainFacts.
Variable isprintable : N -> bool.
Variable lower : pystr -> pystr.
Variable w : world.
Variable path_exists : pystr -> bool.
Variable stdout_print : list stdout_line -> stdout_line -> outcome unit.
Variable stderr_is_none : bool.

Lemma main_usage argv :
  length argv <> 2%nat ->
  main isprintable lower w path_exists stdout_print stderr_is_none argv
  = print_then stdout_print [] []
      (Text (py "Usage: python document_parser.py <file_path>")) (Exited 1).
Proof.
  intros H. unfold main.
  destruct (Z.eqb_spec (len argv) 2) as [E|_]; [|reflexivity].
  unfold len in E. lia.
Qed.

Lemma main_missing prog file_path :
  path_exists file_path = false ->
  main isprintable lower w path_exists stdout_print stderr_is_none
       [prog; file_path]
  = print_then stdout_print [] []
      (Json {[ "error" := VStr (py "File not found: " ++ file_path) ]})
      (Exited 1).
Proof. intros H. unfold main. simpl. rewrite H. reflexivity. Qed.

Lemma main_extracts prog file_path :
  path_exists file_path = true ->
  exists r printed,
    extract_text isprintable lower w file_path [] = (Returns r, printed)
    /\ main isprintable lower w path_exists stdout_print stderr_is_none
             [prog; file_path]
       = print_then stdout_print (on_stdout stderr_is_none printed)
           (on_stderr stderr_is_none printed) (Json r) Finished.
Proof.
  intros H.
  destruct (extract_text_form isprintable lower w file_path [])
    as (r & printed & Hrun & _).
  exists r, printed. split; [exact Hrun|].
  unfold main. simpl. rewrite H, Hrun. reflexivity.
Qed.

Lemma two_args (argv : list pystr) :
  length argv = 2%nat -> exists prog file_path, argv = [prog; file_path].
Proof.
  destruct argv as [|a [|b [|c rest]]]; try discriminate. eauto.
Qed.

End MainFacts.


(** X15. When [sys.stderr] is a stream and the prints on standard output
    return, the script prints exactly one line there: the usage message
    when the number of arguments is wrong (nothing is then looked at);
    the record [File not found: <path>] when the path does not exist (the
    parser is then not run); and otherwise the record [extract_text]
    returns for the path, with what the parser printed going to
    [sys.stderr]. *)
Theorem main_prints_one_line
    (isprintable : N -> bool) (lower : pystr -> pystr) (w : world)
    (path_exists : pystr -> bool)
    (stdout_print : list stdout_line -> stdout_line -> outcome unit)
    (argv : list pystr) :
  (forall before line, stdout_print before line = Returns ()) ->
  let p := main isprintable lower w path_exists stdout_print false argv in
  exists line,
    stdout p = [line]
    /\ ((length argv <> 2%nat
         /\ line = Text (py "Usage: python document_parser.py <file_path>")
         /\ stderr_lines p = [])
        \/ exists prog file_path,
             argv = [prog; file_path]
             /\ ((path_exists file_path = false
                  /\ line = Json {[ "error" :=
                                      VStr (py "File not found: " ++ file_path) ]}
                  /\ stderr_lines p = [])
                 \/ (path_exists file_path = true
                     /\ exists r,
                          line = Json r
                          /\ extract_text isprintable lower w file_path []
                             = (Returns r, stderr_lines p)))).
Proof.
  intros Hprint p. subst p.
  destruct (decide (length argv = 2%nat)) as [Hlen|Hlen].
  - destruct (two_args argv Hlen) as (prog & file_path & ->).
    destruct (path_exists file_path) eqn:Hex.
    + destruct (main_extracts isprintable lower w path_exists stdout_print
                  false prog file_path Hex)
        as (r & printed & Hrun & ->).
      unfold print_then. rewrite Hprint. simpl.
      eexists. split; [reflexivity|]. right. exists prog, file_path.
      split; [reflexivity|]. right. split; [exact Hex|].
      exists r. split; [reflexivity | exact Hrun].
    + rewrite (main_missing isprintable lower w path_exists stdout_print
                 false prog file_path Hex).
      unfold print_then. rewrite Hprint. simpl.
      eexists. split; [reflexivity|]. right. exists prog, file_path.
      split; [reflexivity|]. left. auto.
  - rewrite (main_usage isprintable lower w path_exists stdout_print
               false argv Hlen).
    unfold print_then. rewrite Hprint. simpl.
    eexists. split; [reflexivity|]. left. auto.
Qed.

Lemma main_prints_one_line_witness :
  let w := sample_world
             [page_scanned (Raises (Exception (py "tesseract is not installed")))]
             [] [] in
  let p := main isprintable_latin1 lower_ascii w (fun _ => true)
                (fun _ _ => Returns ()) false
                [py "document_parser.py"; py "scan.pdf"] in
  stdout p
  = [Json {[ "text" := VStr [];
             "pages_processed" := VInt 1;
             "ocr_pages" := VInt 0;
             "length" := VInt 0;
             "method" := VStr (py "PyMuPDF + OCR") ]}]
  /\ stderr_lines p = [py "OCR failed for page 0: tesseract is not installed"].
Proof.
  intros w p.
  destruct (main_prints_one_line isprintable_latin1 lower_ascii w (fun _ => true)
              (fun _ _ => Returns ()) [py "document_parser.py"; py "scan.pdf"])
    as (line & Hout & _).
  - intros before line. reflexivity.
  - split; reflexivity.
Defined.

(** ** What the page loop does not look at *)

Lemma same_where_read_page p p' :
  same_where_read p p' ->
  page_text p = page_text p'
  /\ ocr_page p = ocr_page p'
  /\ forall k, page_diagnostics k p = page_diagnostics k p'.
Proof.
  intros [Ht Ho].
  assert (Hn : native_page p = native_page p')
    by (unfold native_page; rewrite Ht; reflexivity).
  unfold page_text, ocr_page, page_diagnostics. rewrite <- Hn, <- Ht.
  destruct (native_page p) eqn:En.
  - unfold native_page in En. destruct (get_text p) as [text|e]; [|discriminate].
    rewrite En. repeat split.
  - rewrite <- (Ho eq_refl). repeat split.
Qed.

Lemma same_where_read_pages pages pages' :
  Forall2 same_where_read pages pages' ->
  concat (page_text <$> pages) = concat (page_text <$> pages')
  /\ len pages = len pages'
  /\ count ocr_page pages = count ocr_page pages'
  /\ forall k, diagnostics_from k pages = diagnostics_from k pages'.
Proof.
  induction 1 as [|p p' pages pages' Hp Hrest (IHt & IHl & IHc & IHd)].
  - repeat split.
  - destruct (same_where_read_page p p' Hp) as (Ht & Ho & Hd).
    rewrite !fmap_cons, !count_cons. simpl concat.
    rewrite Ht, Ho, IHt, IHc. unfold len in *. simpl length.
    repeat split; [lia|]. intros k. simpl. rewrite Hd, IHd. reflexivity.
Qed.

Lemma print_all_app w printed (a b : list pystr) :
  print_all w printed (a ++ b)
  = match print_all w printed a with
    | (Returns _, printed') => print_all w printed' b
    | (Raises e, printed') => (Raises e, printed')
    end.
Proof.
  revert printed. induction a as [|line a IH]; intros printed; simpl;
    [reflexivity|].
  destruct (stderr_print w printed line); [apply IH | reflexivity].
Qed.

Lemma print_all_ext w w' printed (lines : list pystr) :
  (forall printed line, stderr_print w printed line = stderr_print w' printed line) ->
  print_all w printed lines = print_all w' printed lines.
Proof.
  intros H. revert printed.
  induction lines as [|line lines IH]; intros printed; [reflexivity|].
  simpl. rewrite H, IH. reflexivity.
Qed.

Lemma pdf_page_step_prints w full_text pages_processed ocr_pages page_num p stderr :
  readable_page p ->
  pdf_page_step w (full_text, pages_processed, ocr_pages)
                (page_num, Returns p) stderr
  = match print_all w stderr (page_diagnostics page_num p) with
    | (Returns _, stderr') =>
        (Returns (full_text ++ page_text p,
                  (pages_processed + 1)%Z,
                  (ocr_pages + (if ocr_page p then 1 else 0))%Z), stderr')
    | (Raises e, stderr') => (Raises e, stderr')
    end.
Proof.
  intros [text Ht]. destruct p as [gt gp]. simpl in Ht. subst gt.
  run_page_step.
  rewrite truthy_strip. destruct (has_content text); simpl.
  { rewrite Z.add_0_r. reflexivity. }
  destruct gp as [[[[[[[ocr_text|e]]|e]]|e]]|e]; simpl;
    rewrite ?truthy_strip; try destruct (has_content ocr_text); simpl;
    rewrite ?Z.add_0_r, ?app_nil_r; try reflexivity;
    (destruct (stderr_print w stderr _); reflexivity).
Qed.

Lemma pdf_loop_prints w pages :
  forall k full_text pages_processed ocr_pages stderr,
  Forall readable_page pages ->
  for_each (pdf_page_step w) (enumerate_from k (Returns <$> pages))
           (full_text, pages_processed, ocr_pages) stderr
  = match print_all w stderr (diagnostics_from k pages) with
    | (Returns _, stderr') =>
        (Returns (full_text ++ concat (page_text <$> pages),
                  (pages_processed + len pages)%Z,
                  (ocr_pages + count ocr_page pages)%Z), stderr')
    | (Raises e, stderr') => (Raises e, stderr')
    end.
Proof.
  induction pages as [|p pages IH]; intros k ft pp op stderr H.
  - simpl. unfold mret, M_ret, count, len. simpl.
    rewrite !Z.add_0_r, !app_nil_r. reflexivity.
  - inversion H as [|? ? Hp Hrest]; subst.
    simpl diagnostics_from. rewrite print_all_app.
    rewrite fmap_cons. cbn [enumerate_from for_each].
    unfold mbind at 1. unfold M_bind at 1.
    rewrite (pdf_page_step_prints _ _ _ _ _ _ _ Hp).
    destruct (print_all w stderr (page_diagnostics k p)) as [[[]|e] stderr1];
      [|reflexivity].
    rewrite (IH _ _ _ _ _ Hrest).
    destruct (print_all w stderr1 (diagnostics_from (k + 1) pages))
      as [[[]|e] stderr2]; [|reflexivity].
    rewrite count_cons. unfold len. simpl.
    rewrite <- !app_assoc, Z.add_assoc.
    replace (Z.of_nat (S (length pages))) with (1 + Z.of_nat (length pages))%Z
      by lia.
    rewrite Z.add_assoc. reflexivity.
Qed.

Lemma extract_text_from_pdf_prints isprintable w file_path pages stderr :
  pdf_reads w file_path pages ->
  extract_text_from_pdf isprintable w file_path stderr
  = match print_all w stderr (diagnostics_from 0 pages) with
    | (Returns _, stderr') =>
        (Returns {[ "text" := VStr (clean_extracted_text isprintable
                                      (concat (page_text <$> pages)));
                    "pages_processed" := VInt (len pages);
                    "ocr_pages" := VInt (count ocr_page pages);
                    "length" := VInt (len (clean_extracted_text isprintable
                                             (concat (page_text <$> pages))));
                    "method" := VStr (py "PyMuPDF + OCR") ]}, stderr')
    | (Raises e, stderr') =>
        (Returns {[ "error" :=
                      VStr (py "PDF extraction failed: " ++ str_exn e) ]},
         stderr')
    end.
Proof.
  intros (doc & Hopen & Hpages & Hread & Hclose).
  unfold extract_text_from_pdf, try_except.
  unfold mbind at 1. unfold M_bind at 1. unfold call at 1. rewrite Hopen.
  unfold mbind at 1. unfold M_bind at 1. unfold enumerate.
  rewrite Hpages, (pdf_loop_prints w pages _ _ _ _ _ Hread).
  destruct (print_all w stderr (diagnostics_from 0 pages)) as [[[]|e] stderr1];
    [|reflexivity].
  rewrite Hclose. reflexivity.
Qed.

(** X16. OCR is never run on a page that has native text: two documents
    that read, whose pages agree on the text layer and, where the text
    layer has no content, on the OCR chain, printed on the same
    [sys.stderr], give the same record and the same printed lines,
    whatever rendering or OCR would do on the pages with native text. *)
Theorem native_pages_skip_ocr
    (isprintable : N -> bool) (w w' : world) (file_path file_path' : pystr)
    (pages pages' : list page) (stderr : list pystr) :
  pdf_reads w file_path pages ->
  pdf_reads w' file_path' pages' ->
  Forall2 same_where_read pages pages' ->
  (forall printed line, stderr_print w printed line = stderr_print w' printed line) ->
  extract_text_from_pdf isprintable w file_path stderr
  = extract_text_from_pdf isprintable w' file_path' stderr.
Proof.
  intros Hr Hr' Hsame Hprint.
  destruct (same_where_read_pages pages pages' Hsame) as (Ht & Hl & Hc & Hd).
  rewrite (extract_text_from_pdf_prints isprintable w _ _ stderr Hr).
  rewrite (extract_text_from_pdf_prints isprintable w' _ _ stderr Hr').
  rewrite Ht, Hl, Hc, Hd, (print_all_ext w w' _ _ Hprint). reflexivity.
Qed.

Lemma native_pages_skip_ocr_witness :
  let typed := page_with_text (py "typed") in
  let typed' := {| get_text := Returns (py "typed");
                   get_pixmap := get_pixmap (page_scanned (Returns (py "seen"))) |} in
  extract_text_from_pdf isprintable_latin1 (sample_world [typed] [] [])
    (py "a.pdf") []
  = extract_text_from_pdf isprintable_latin1 (sample_world [typed'] [] [])
      (py "b.pdf") [].
Proof.
  intros typed typed'.
  apply (native_pages_skip_ocr isprintable_latin1
           (sample_world [typed] [] []) (sample_world [typed'] [] [])
           (py "a.pdf") (py "b.pdf") [typed] [typed'] []).
  - apply sample_world_pdf_reads. repeat constructor. eexists. reflexivity.
  - apply sample_world_pdf_reads. repeat constructor. eexists. reflexivity.
  - repeat constructor. intros H. discriminate H.
  - reflexivity.
Defined.

(** ** Where an error message comes from *)






(** ** The lines that survive *)

Lemma filter_truthy_drop_blank (lines : list pystr) :
  List.filter truthy (drop_while is_blank lines) = List.filter truthy lines.
Proof.
  induction lines as [|l lines IH]; [reflexivity|].
  destruct l as [|c l]; [exact IH | reflexivity].
Qed.

Lemma filter_reverse {A} (f : A -> bool) l :
  List.filter f (reverse l) = reverse (List.filter f l).
Proof.
  induction l as [|x l IH]; [reflexivity|].
  rewrite reverse_cons, List.filter_app, IH. simpl.
  destruct (f x); [rewrite reverse_cons | rewrite app_nil_r]; reflexivity.
Qed.

Lemma filter_truthy_strip_blank (lines : list pystr) :
  List.filter truthy (strip_by is_blank lines) = List.filter truthy lines.
Proof.
  unfold strip_by.
  rewrite filter_reverse, filter_truthy_drop_blank, filter_reverse,
    reverse_involutive.
  apply filter_truthy_drop_blank.
Qed.

Lemma filter_truthy_collapse prev_blank (lines : list pystr) :
  List.filter truthy (collapse prev_blank lines) = List.filter truthy lines.
Proof.
  revert prev_blank. induction lines as [|l lines IH]; intros pb; [reflexivity|].
  simpl. destruct l as [|c l]; simpl.
  - destruct pb; simpl; apply IH.
  - rewrite IH. reflexivity.
Qed.

(** X18. The normaliser neither loses nor reorders a line with content:
    the non-empty lines of its output are, in order, the stripped lines
    of the filtered input that are not empty. *)
Theorem clean_keeps_nonblank_lines (isprintable : N -> bool) (s : pystr) :
  List.filter truthy (split NL (clean_extracted_text isprintable s))
  = List.filter truthy
      (strip <$> split NL (List.filter (keep isprintable) s)).
Proof.
  destruct s as [|c s]; [reflexivity|].
  rewrite <- (filter_truthy_collapse false (strip <$> _)).
  rewrite <- (filter_truthy_strip_blank (collapse false _)).
  rewrite clean_nonempty by discriminate.
  destruct (result_lines_shape isprintable (c :: s)) as (Hs & Hc & _).
  simpl in Hs, Hc. rewrite strip_join by exact Hs.
  set (lines := strip_by is_blank _).
  assert (Hl : Forall (line_chars isprintable) lines)
    by (apply strip_by_Forall, Hc).
  clearbody lines. destruct lines as [|l lines]; [reflexivity|].
  rewrite split_join; [reflexivity | discriminate |].
  eapply Forall_impl; [exact Hl|]. intros l' Hl' Hin. unfold line_chars in Hl'.
  rewrite Forall_forall in Hl'. destruct (Hl' NL Hin) as [_ Hn]. congruence.
Qed.
